(** * Presentation graphics for two river gauges: a shallow embedding

    The development follows [program_11.py]: the Record Reader ([ReadData]),
    the Range Clipper ([ClipData]), the Monthly Averager
    ([GetMonthlyAverages]), the exceedance ranking done inline by the script,
    the series the main block prepares for the figures and the sequence of
    plotting calls that writes the six figures.

    Modelling choices.
    - A discharge or statistic cell is a [float64] that may be [NaN]; it is
      modelled as [option Q]: [None] is the missing marker, [Some q] a number.
      Arithmetic is exact rational arithmetic, so equalities between computed
      numbers are stated with [==] (Qeq).
    - What [pandas.read_csv] does to the text of a file is outside the
      program; a file is given as the list of its data lines, already split
      into the five fields.
    - A label slice on a date index in chronological order selects the rows
      dated between the two labels.  What it does on an index in another
      order is not fixed by the program; where a call is stated with its
      possible KeyError, that part is a parameter. *)

From Stdlib Require Import String ZArith QArith Bool List Lia Sorted Permutation.
Import ListNotations.
Open Scope string_scope.
Open Scope list_scope.
Open Scope Z_scope.

(** ** Dates *)

(** A calendar date as it appears in the index of a table. *)
Record Timestamp := mkTimestamp { year : Z; month : Z; day : Z }.

(** Chronological comparison [a <= b]. *)
Definition ts_leb (a b : Timestamp) : bool :=
  (year a <? year b)
  || ((year a =? year b)
      && ((month a <? month b)
          || ((month a =? month b) && (day a <=? day b)))).

Definition ts_le (a b : Timestamp) : Prop := ts_leb a b = true.

(** ** The raw discharge table *)

(** The discharge field of a data line: a number, the USGS token [Eqp]
    (passed to [read_csv] as [na_values]), or one of the standard empty
    markers. *)
Inductive DischargeField :=
| Numeric (q : Q)
| Eqp
| NAmarker.

(** One data line of a raw file. *)
Record FileLine := mkFileLine {
  f_agency_cd : string;
  f_site_no : string;
  f_date : Timestamp;
  f_discharge : DischargeField;
  f_quality : string
}.

Definition File := list FileLine.

(** One row of the table; [Date] is the index. *)
Record Row := mkRow {
  agency_cd : string;
  site_no : string;
  Date : Timestamp;
  Discharge : option Q;
  Quality : string
}.

Definition DataFrame := list Row.

(** [na_values=['Eqp']]: the sentinel and the empty markers become NaN. *)
Definition parse_discharge (f : DischargeField) : option Q :=
  match f with
  | Numeric q => Some q
  | Eqp => None
  | NAmarker => None
  end.

(** [pd.read_csv(...)] followed by [set_index('Date')]. *)
Definition read_csv (fileName : File) : DataFrame :=
  map (fun l => mkRow (f_agency_cd l) (f_site_no l) (f_date l)
                      (parse_discharge (f_discharge l)) (f_quality l))
      fileName.

(** [x < 0] on a float cell; a comparison with NaN is false. *)
Definition Qltb (x y : Q) : bool := (Qnum x * QDen y <? Qnum y * QDen x)%Z.

Definition lt_zero (c : option Q) : bool :=
  match c with
  | Some q => Qltb q 0
  | None => false
  end.

Definition isna (c : option Q) : bool :=
  match c with
  | Some _ => false
  | None => true
  end.

(** [DataDF['Discharge'].loc[DataDF['Discharge'] < 0] = np.NaN] *)
Definition remove_negative (DataDF : DataFrame) : DataFrame :=
  map (fun r => if lt_zero (Discharge r)
                then mkRow (agency_cd r) (site_no r) (Date r) None (Quality r)
                else r)
      DataDF.

(** [DataDF["Discharge"].isna().sum()] *)
Definition isna_sum (DataDF : DataFrame) : nat :=
  length (filter (fun r => isna (Discharge r)) DataDF).

Definition ReadData (fileName : File) : DataFrame * nat :=
  let DataDF := read_csv fileName in
  let DataDF := remove_negative DataDF in
  let MissingValues := isna_sum DataDF in
  (DataDF, MissingValues).

(** The rows between the start and end dates, inclusive end points: what
    the label slice [DataDF[startDate:endDate]] selects when pandas resolves
    the two labels by date.  It does so on every index in chronological
    order, the order of the files the script reads, where the rows kept form
    one run of consecutive rows.  On an index that is not in chronological
    order the outcome depends on the kind of the labels (see
    [getitem_slice] below). *)
Definition in_window (startDate endDate : Timestamp) (r : Row) : bool :=
  ts_leb startDate (Date r) && ts_leb (Date r) endDate.

Definition slice_dates (DataDF : DataFrame) (startDate endDate : Timestamp)
  : DataFrame :=
  filter (in_window startDate endDate) DataDF.

Definition ClipData (DataDF : DataFrame) (startDate endDate : Timestamp)
  : DataFrame * nat :=
  let DataDF := slice_dates DataDF startDate endDate in
  let MissingValues := isna_sum DataDF in
  (DataDF, MissingValues).

(** The index of a table, its first and its last date
    ([DataDF.index[0]], [DataDF.index[-1]]). *)
Definition index (DataDF : DataFrame) : list Timestamp := map Date DataDF.

Definition first_date (DataDF : DataFrame) : option Timestamp :=
  hd_error (index DataDF).

Definition last_date (DataDF : DataFrame) : option Timestamp :=
  hd_error (rev (index DataDF)).

(** The dates of a table are in chronological order (pandas'
    [is_monotonic_increasing]): each date is at most the next one. *)
Definition chronological (DataDF : DataFrame) : Prop :=
  Sorted ts_le (index DataDF).

(** The outcome of a lookup by label: a value, or pandas' KeyError. *)
Inductive Lookup (A : Type) :=
| Found (a : A)
| KeyError.
Arguments Found {A} a.
Arguments KeyError {A}.

(** [index.is_monotonic_increasing] *)
Fixpoint is_monotonic_increasing (dates : list Timestamp) : bool :=
  match dates with
  | [] => true
  | a :: rest =>
      match rest with
      | [] => true
      | b :: _ => ts_leb a b && is_monotonic_increasing rest
      end
  end.

Section LabelSlice.

(** What pandas makes of [DataDF[startDate:endDate]] on an index that is
    not in chronological order depends on the kind of the two labels and on
    the version of the library: a selection by date, the rows between the
    positions of the two labels, or a KeyError.  It is left open here. *)
Variable unordered_slice :
  DataFrame -> Timestamp -> Timestamp -> Lookup DataFrame.

(** [DataDF[startDate:endDate]] *)
Definition getitem_slice (DataDF : DataFrame) (startDate endDate : Timestamp)
  : Lookup DataFrame :=
  if is_monotonic_increasing (index DataDF)
  then Found (slice_dates DataDF startDate endDate)
  else unordered_slice DataDF startDate endDate.

(** A call of [ClipData], with the KeyError the slice may raise. *)
Definition ClipData_call (DataDF : DataFrame) (startDate endDate : Timestamp)
  : Lookup (DataFrame * nat) :=
  match getitem_slice DataDF startDate endDate with
  | Found DataDF =>
      let MissingValues := isna_sum DataDF in
      Found (DataDF, MissingValues)
  | KeyError => KeyError
  end.

End LabelSlice.

(** What the specification calls the missing-value count within a date
    range: the number of rows dated from the start to the end date, both
    included, whose discharge is the missing marker. *)
Fixpoint missing_between (startDate endDate : Timestamp) (DataDF : DataFrame)
  : nat :=
  match DataDF with
  | [] => 0%nat
  | r :: rest =>
      match Discharge r with
      | None =>
          if ts_leb startDate (Date r) && ts_leb (Date r) endDate
          then S (missing_between startDate endDate rest)
          else missing_between startDate endDate rest
      | Some _ => missing_between startDate endDate rest
      end
  end.

(** A discharge cell is well formed: missing, or a non-negative number. *)
Definition discharge_ok (c : option Q) : Prop :=
  match c with
  | Some q => (0 <= q)%Q
  | None => True
  end.

(** Number of lines whose discharge field is read as missing, and number of
    lines with a negative discharge. *)
Definition count_na_fields (fileName : File) : nat :=
  length (filter (fun l => isna (parse_discharge (f_discharge l))) fileName).

Definition count_negative (fileName : File) : nat :=
  length (filter (fun l => lt_zero (parse_discharge (f_discharge l))) fileName).

(** ** The metrics tables and the Monthly Averager *)

(** A table read by [ReadMetrics]: the date index, the named statistic
    columns and, after them, the [Station] column, held column by column as
    pandas does.  Station names are words, not numerals. *)
Record MetricsDF := mkMetricsDF {
  m_index : list Timestamp;
  m_station : list string;
  m_columns : list (string * list (option Q))
}.

(** A pandas Series of floats with labels of type [K]. *)
Definition Series (K : Type) := list (K * option Q).

(** Row selection by a boolean mask, [df.loc[mask]] on one column. *)
Fixpoint select {A : Type} (mask : list bool) (l : list A) : list A :=
  match mask, l with
  | b :: mask', x :: l' =>
      if b then x :: select mask' l' else select mask' l'
  | _, _ => []
  end.

Definition loc (df : MetricsDF) (mask : list bool) : MetricsDF :=
  mkMetricsDF (select mask (m_index df))
              (select mask (m_station df))
              (map (fun c => (fst c, select mask (snd c))) (m_columns df)).

(** [df['Station'] == name] *)
Definition station_is (df : MetricsDF) (name : string) : list bool :=
  map (fun s => String.eqb s name) (m_station df).

(** [dates.month == m] *)
Definition month_is (dates : list Timestamp) (m : Z) : list bool :=
  map (fun d => month d =? m) dates.

(** The mean of a float column as pandas computes it with [skipna=True]:
    NaN cells add 0 to the sum and are left out of the count; the result is
    NaN when the count is 0. *)
Definition fillna0 (c : option Q) : Q :=
  match c with
  | Some q => q
  | None => 0%Q
  end.

Definition nansum (v : list (option Q)) : Q :=
  fold_right (fun c acc => (fillna0 c + acc)%Q) 0%Q v.

Definition notna_count (v : list (option Q)) : nat :=
  List.length (filter (fun c => negb (isna c)) v).

Definition nanmean (v : list (option Q)) : option Q :=
  let count := notna_count v in
  if (count =? 0)%nat then None
  else Some (nansum v / inject_Z (Z.of_nat count))%Q.

(** [df.mean()]: one entry per statistic column.  The [Station] column is
    not numeric: on a table with rows pandas leaves it out of the result,
    on a table without rows it keeps it, with a NaN. *)
Definition mean (df : MetricsDF) : Series string :=
  map (fun c => (fst c, nanmean (snd c))) (m_columns df)
  ++ match m_index df with
     | [] => [("Station", None)]
     | _ :: _ => []
     end.

(** The table built from a dict of Series: one labelled column per key, in
    the order of the keys, each held as the Series it was built from.  The
    rows of the table are the labels that occur in some Series
    ([row_labels] below), a cell being NaN where the Series of its column
    lacks the label ([get_cell] below). *)
Definition MonthlyDF := list (Z * Series string).

Definition GetMonthlyAverages (MoDataDF : MetricsDF) : MonthlyDF :=
  let dates := m_index MoDataDF in
  let MonthAVG :=
    map (fun i => mean (loc MoDataDF (month_is dates (Z.of_nat i + 1))))
        (seq 0 12) in
  [ (1, nth 0 MonthAVG []); (2, nth 1 MonthAVG []);
    (3, nth 2 MonthAVG []); (4, nth 3 MonthAVG []);
    (5, nth 4 MonthAVG []); (6, nth 5 MonthAVG []);
    (7, nth 6 MonthAVG []); (8, nth 7 MonthAVG []);
    (9, nth 8 MonthAVG []); (10, nth 9 MonthAVG []);
    (11, nth 10 MonthAVG []); (12, nth 11 MonthAVG []) ].

(** The column labels of the result and the row labels of one column. *)
Definition columns (out : MonthlyDF) : list Z := map fst out.

Definition labels {K : Type} (s : Series K) : list K := map fst s.

(** What the specification calls the bucket of a statistic and a month: the
    non-missing values of the column on the rows dated in that month. *)
Fixpoint bucket_values (m : Z) (dates : list Timestamp)
         (vals : list (option Q)) : list Q :=
  match dates, vals with
  | d :: ds, Some q :: vs =>
      if month d =? m then q :: bucket_values m ds vs
      else bucket_values m ds vs
  | _ :: ds, None :: vs => bucket_values m ds vs
  | _, _ => []
  end.

Definition Qsum (l : list Q) : Q := fold_right Qplus 0%Q l.

Definition arithmetic_mean (l : list Q) : Q :=
  (Qsum l / inject_Z (Z.of_nat (List.length l)))%Q.

(** ** The exceedance ranking of the script *)

(** A float Series without its labels. *)
Definition FloatSeries := list (option Q).

Fixpoint insert_desc (x : Q) (l : list Q) : list Q :=
  match l with
  | [] => [x]
  | y :: l' => if Qle_bool y x then x :: l else y :: insert_desc x l'
  end.

Definition sort_desc (l : list Q) : list Q := fold_right insert_desc [] l.

Definition dropna (s : FloatSeries) : list Q :=
  flat_map (fun c => match c with Some q => [q] | None => [] end) s.

(** [s.sort_values(ascending=False)]: the numbers in descending order, the
    NaN entries after them. *)
Definition sort_values_descending (s : FloatSeries) : FloatSeries :=
  map Some (sort_desc (dropna s)) ++ filter isna s.

(** Python exceptions the ranking loop could raise, and the outcome of an
    evaluation. *)
Inductive PyExn := ZeroDivisionError.

Inductive Outcome (A : Type) :=
| Returns (a : A)
| Raises (e : PyExn).
Arguments Returns {A} a.
Arguments Raises {A} e.

(** [a / b] on two ints. *)
Definition truediv (a b : Z) : Outcome Q :=
  if b =? 0 then Raises ZeroDivisionError
  else Returns (inject_Z a / inject_Z b)%Q.

(** The state of the loop: the list [pp] being built and the divisions
    evaluated so far, as (numerator, denominator). *)
Record LoopState := mkLoopState {
  pp : list Q;
  divisions : list (Z * Z)
}.

Definition Py (A : Type) := LoopState -> Outcome A * LoopState.

Definition ret {A : Type} (a : A) : Py A := fun st => (Returns a, st).

Definition bind {A B : Type} (c : Py A) (k : A -> Py B) : Py B :=
  fun st =>
    match c st with
    | (Returns a, st') => k a st'
    | (Raises e, st') => (Raises e, st')
    end.

Notation "x <- c ;; k" := (bind c (fun x => k))
  (at level 61, c at next level, right associativity).

Definition divide (a b : Z) : Py Q :=
  fun st => (truediv a b, mkLoopState (pp st) (divisions st ++ [(a, b)])).

Definition append (x : Q) : Py unit :=
  fun st => (Returns tt, mkLoopState (pp st ++ [x]) (divisions st)).

(** [for i in range(k)] started at [i]. *)
Fixpoint for_range (k i : nat) (body : nat -> Py unit) : Py unit :=
  match k with
  | O => ret tt
  | S k' => _ <- body i ;; for_range k' (S i) body
  end.

(** [pp = []; for i in range(len(peak)): pp.append((i+1)/len(peak))] *)
Definition plotting_position_loop (peak : FloatSeries) : Py unit :=
  for_range (List.length peak) 0
    (fun i =>
       x <- divide (Z.of_nat i + 1) (Z.of_nat (List.length peak)) ;;
       append x).

Definition plotting_positions (peak : FloatSeries)
  : Outcome (list Q) * list (Z * Z) :=
  match plotting_position_loop peak (mkLoopState [] []) with
  | (Returns _, st) => (Returns (pp st), divisions st)
  | (Raises e, st) => (Raises e, divisions st)
  end.

(** Lines 186 to 198 for one station: the sorted peaks and the positions. *)
Definition ExceedanceRanker (peak : FloatSeries)
  : FloatSeries * Outcome (list Q) :=
  let peak := sort_values_descending peak in
  (peak, fst (plotting_positions peak)).

(** The plotting position of the value at index [i] (rank [i + 1]) among [n]
    values: [(i + 1) / n]. *)
Definition position (n i : nat) : Q :=
  (inject_Z (Z.of_nat i + 1) / inject_Z (Z.of_nat n))%Q.

(** The division of two naturals as a rational, to state [i / n]. *)
Definition ratio (i n : nat) : Q :=
  (inject_Z (Z.of_nat i) / inject_Z (Z.of_nat n))%Q.

(** [a] is at least [b]. *)
Definition ge_Q (a b : Q) : Prop := (b <= a)%Q.

(** A list of numbers in descending order. *)
Definition descending (l : list Q) : Prop :=
  forall i j x y, (i <= j)%nat ->
    nth_error l i = Some x -> nth_error l j = Some y -> (y <= x)%Q.

(** ** The plotting calls of the script *)

(** An image file on disk, with what it was rendered from. *)
Record Image := mkImage {
  img_name : string;
  img_dpi : Z;
  img_figsize : Q * Q;
  img_font_size : Q
}.

(** The part of matplotlib's state the script acts on: the [font.size]
    entry of [rcParams], the size of the current figure if there is one, and
    the files written so far. *)
Record PltState := mkPltState {
  font_size : Q;
  current_figure : option (Q * Q);
  written : list Image
}.

(** matplotlib's defaults: font size 10, figure size 6.4 by 4.8. *)
Definition default_figsize : Q * Q := (32 # 5, 24 # 5)%Q.

Definition plt_initial : PltState := mkPltState 10%Q None [].

Inductive PltCall :=
| rcParams_update_font_size (size : Q)
| figure (width height : Q)
| plot (style : string)
| grid
| xlabel (text : string)
| ylabel (text : string)
| title (text : string)
| legend (first second : string)
| xlim (left right : Q)
| tight_layout
| savefig (name : string) (dpi : Z).

(** A call that draws on the current figure makes a default one when there
    is none. *)
Definition gcf (st : PltState) : Q * Q :=
  match current_figure st with
  | Some size => size
  | None => default_figsize
  end.

Definition draw (st : PltState) : PltState :=
  mkPltState (font_size st) (Some (gcf st)) (written st).

Definition call (st : PltState) (c : PltCall) : PltState :=
  match c with
  | rcParams_update_font_size size =>
      mkPltState size (current_figure st) (written st)
  | figure width height =>
      mkPltState (font_size st) (Some (width, height)) (written st)
  | savefig name dpi =>
      mkPltState (font_size st) (Some (gcf st))
                 (written st ++ [mkImage name dpi (gcf st) (font_size st)])
  | _ => draw st
  end.

Definition run (script : list PltCall) (st : PltState) : PltState :=
  fold_left call script st.

Definition riverName_Wildcat : string := "Wildcat Creek".
Definition riverName_Tippe : string := "Tippecanoe River".

(** The plotting calls of one figure, lines 123 to 132 and alike. *)
Definition two_series_figure (x_text y_text title_text file : string)
  : list PltCall :=
  [ figure 9 (13 # 2);
    plot "r"; plot "b";
    grid;
    xlabel x_text; ylabel y_text; title title_text;
    legend riverName_Wildcat riverName_Tippe;
    tight_layout;
    savefig file 96 ].

(** The last figure, lines 201 to 212, which also reverses the x axis. *)
Definition exceedance_figure : list PltCall :=
  [ figure 9 (13 # 2);
    plot ".r"; plot ".b";
    xlim 1 0;
    grid;
    xlabel "Exceedance Probability"; ylabel "Peak Flow (ft^3/s)";
    title "Peak Flow Probability - Field";
    legend riverName_Wildcat riverName_Tippe;
    tight_layout;
    savefig "ExceedanceProbability.png" 96 ].

(** Every matplotlib call of the main block, in program order. *)
Definition main_script : list PltCall :=
  [ rcParams_update_font_size 20 ]
  ++ two_series_figure "Date" "Discharge (ft^3/s)"
       "Last Five Years of Daily Discharge - Field" "DailyDischarge5Year.png"
  ++ two_series_figure "Year" "Coefficient of Variation (%)"
       "Annual Coefficient of Variation  - Field" "AnnualCoeffVar.png"
  ++ two_series_figure "Year" "TQmean (UNITLESS)"
       "Annual TQ Mean - Field" "AnnualTQmean.png"
  ++ two_series_figure "Year" "R-B Index (UNITLESS)"
       "Annual R-B Index - Field" "AnnualRBindex.png"
  ++ two_series_figure "Month Number" "Mean Flow (ft^3/s)"
       "Monthly Mean Flow - Field" "MonthlyMeanFlow.png"
  ++ exceedance_figure.

(** The six file names of the specification. *)
Definition expected_names : list string :=
  [ "DailyDischarge5Year.png"; "AnnualCoeffVar.png"; "AnnualTQmean.png";
    "AnnualRBindex.png"; "MonthlyMeanFlow.png"; "ExceedanceProbability.png" ].

(** ** The data the main block prepares for the figures *)

(** A Series of floats indexed by date, [DataDF['Discharge']]. *)
Definition DailySeries := list (Timestamp * option Q).

Definition getitem_Discharge (DataDF : DataFrame) : DailySeries :=
  map (fun r => (Date r, Discharge r)) DataDF.

(** [s[startDate:endDate]] on a Series indexed by date: the entries dated
    between the two dates, which is what pandas selects on an index in
    chronological order. *)
Definition slice_series (s : DailySeries) (startDate endDate : Timestamp)
  : DailySeries :=
  filter (fun p => ts_leb startDate (fst p) && ts_leb (fst p) endDate) s.

(** [s.index[-1]]; [None] stands for the IndexError of an empty index. *)
Definition index_last (s : DailySeries) : option Timestamp :=
  hd_error (rev (map fst s)).

(** The Gregorian calendar. *)
Definition is_leap_year (y : Z) : bool :=
  (y mod 4 =? 0) && (negb (y mod 100 =? 0) || (y mod 400 =? 0)).

Definition days_in_month (y m : Z) : Z :=
  if m =? 2 then (if is_leap_year y then 29 else 28)
  else if (m =? 4) || (m =? 6) || (m =? 9) || (m =? 11) then 30
  else 31.

Definition valid_date (d : Timestamp) : bool :=
  (1 <=? month d) && (month d <=? 12)
  && (1 <=? day d) && (day d <=? days_in_month (year d) (month d)).

(** [d - pd.DateOffset(months=n)]: the month count moves back by [n], the
    day is kept unless the month reached is shorter. *)
Definition minus_DateOffset_months (d : Timestamp) (n : Z) : Timestamp :=
  let total := year d * 12 + (month d - 1) - n in
  let y := total / 12 in
  let m := total mod 12 + 1 in
  mkTimestamp y m (Z.min (day d) (days_in_month y m)).

(** The two dates the main block clips both stations to. *)
Definition clip_start : Timestamp := mkTimestamp 1969 10 1.
Definition clip_end : Timestamp := mkTimestamp 2019 9 30.

(** Lines 103 to 125 without the plotting calls: the two series drawn in
    the first figure.  [None] is the IndexError raised by
    [wildcatDF.index[-1]] when the clipped Wildcat table has no row.  The
    two label slices of lines 124 and 125 are taken by date, which is what
    pandas does on the tables the clip leaves when the lines of the files
    are in date order. *)
Definition last_five_years (wildcatFile tippeFile : File)
  : option (DailySeries * DailySeries) :=
  let '(wildcatDF, MV) := ReadData wildcatFile in
  let '(tippeDF, MV) := ReadData tippeFile in
  let '(wildcatDF, MV) := ClipData wildcatDF clip_start clip_end in
  let '(tippeDF, MV) := ClipData tippeDF clip_start clip_end in
  let wildcatDF := getitem_Discharge wildcatDF in
  let tippeDF := getitem_Discharge tippeDF in
  match index_last wildcatDF with
  | None => None
  | Some lastDate =>
      let startDate := minus_DateOffset_months lastDate (5 * 12) in
      Some (slice_series wildcatDF startDate lastDate,
            slice_series tippeDF startDate lastDate)
  end.

(** Every column of a metrics table has one cell per row. *)
Definition well_formed (df : MetricsDF) : Prop :=
  List.length (m_station df) = List.length (m_index df) /\
  Forall (fun c => List.length (snd c) = List.length (m_index df))
         (m_columns df).

(** [df[name]]; [None] stands for the KeyError of an unknown column. *)
Definition getitem (df : MetricsDF) (name : string)
  : option (list (option Q)) :=
  option_map snd (find (fun c => String.eqb (fst c) name) (m_columns df)).

(** [df[name].loc[df['Station'] == station]] *)
Definition getitem_station (df : MetricsDF) (name station : string)
  : option FloatSeries :=
  option_map (select (station_is df station)) (getitem df name).

(** Lines 186 to 198 for one station, from the annual metrics table. *)
Definition exceedance_points (annualMetrics : MetricsDF) (station : string)
  : option (FloatSeries * Outcome (list Q)) :=
  option_map ExceedanceRanker
             (getitem_station annualMetrics "Peak Flow" station).

(** The cell of a Series at a label; NaN when the label is absent, as when
    pandas aligns the Series of a dict on the union of their labels. *)
Definition get_cell (ser : Series string) (name : string) : option Q :=
  match find (fun e => String.eqb (fst e) name) ser with
  | Some e => snd e
  | None => None
  end.

Definition row_labels (out : MonthlyDF) : list string :=
  flat_map (fun c => labels (snd c)) out.

(** [out.transpose()[name]]: one value per month column; [None] stands for
    the KeyError of a name that is no row label. *)
Definition transpose_getitem (out : MonthlyDF) (name : string)
  : option (Series Z) :=
  if existsb (String.eqb name) (row_labels out)
  then Some (map (fun c => (fst c, get_cell (snd c) name)) out)
  else None.

(** Lines 171 to 176 for one station: the series drawn in the monthly
    figure. *)
Definition monthly_mean_flow (monthlyMetrics : MetricsDF) (station : string)
  : option (Series Z) :=
  transpose_getitem
    (GetMonthlyAverages
       (loc monthlyMetrics (station_is monthlyMetrics station)))
    "Mean Flow".

(** The cell of the monthly table in month column [m] and row [k]. *)
Definition cell_at (out : MonthlyDF) (m : Z) (k : nat) : option (option Q) :=
  match find (fun c => fst c =? m) out with
  | Some c => option_map snd (nth_error (snd c) k)
  | None => None
  end.

(** Number of rows of a metrics table that belong to a station. *)
Definition count_station (df : MetricsDF) (station : string) : nat :=
  List.length (filter (fun s => String.eqb s station) (m_station df)).

(** ** Sample inputs *)

Definition jan (d : Z) : Timestamp := mkTimestamp 2020 1 d.

Definition line (d : Timestamp) (f : DischargeField) : FileLine :=
  mkFileLine "USGS" "03335000" d f "A".

(** Three days in order: a number, a negative number, equipment down. *)
Definition sample_file : File :=
  [ line (jan 1) (Numeric 12); line (jan 2) (Numeric (-5)); line (jan 3) Eqp ].

(** Three days out of order. *)
Definition unsorted_file : File :=
  [ line (jan 2) (Numeric 7); line (jan 1) (Numeric 8); line (jan 3) (Numeric 9) ].

(** Mean flow 10 in January 2019, 20 in January 2020, missing in
    February 2019. *)
Definition sample_monthly : MetricsDF :=
  mkMetricsDF
    [ mkTimestamp 2019 1 31; mkTimestamp 2020 1 31; mkTimestamp 2019 2 28 ]
    [ "Wildcat"; "Wildcat"; "Wildcat" ]
    [ ("Mean Flow", [ Some 10%Q; Some 20%Q; None ]) ].

Definition sample_peaks : list Q := [ 100; 50; 75 ]%Q.

(** One row in every month of 2019, the mean flow of month m being m. *)
Definition sample_year : MetricsDF :=
  mkMetricsDF
    (map (fun m => mkTimestamp 2019 m 15) [1; 2; 3; 4; 5; 6; 7; 8; 9; 10; 11; 12])
    (map (fun _ : Z => "Tippe") [1; 2; 3; 4; 5; 6; 7; 8; 9; 10; 11; 12])
    [ ("Mean Flow",
       map (fun m => Some (inject_Z m)) [1; 2; 3; 4; 5; 6; 7; 8; 9; 10; 11; 12]) ].

(** Two short files inside the clipping window, the first ending on a
    29 February. *)
Definition day_of (y m d : Z) : Timestamp := mkTimestamp y m d.

Definition wildcat_sample : File :=
  [ line (day_of 2010 3 1) (Numeric 4); line (day_of 2012 6 30) (Numeric (-1));
    line (day_of 2016 2 29) (Numeric 6) ].

Definition tippe_sample : File :=
  [ line (day_of 2011 2 27) (Numeric 3); line (day_of 2011 2 28) Eqp;
    line (day_of 2017 1 1) (Numeric 5) ].

(** An annual table with two stations and one missing peak. *)
Definition sample_annual : MetricsDF :=
  mkMetricsDF
    [ day_of 2017 9 30; day_of 2017 9 30; day_of 2018 9 30; day_of 2018 9 30 ]
    [ "Wildcat"; "Tippe"; "Wildcat"; "Tippe" ]
    [ ("Peak Flow", [ Some 300%Q; Some 900%Q; None; Some 700%Q ]) ].

(** * Properties *)

(** ** Chronological order *)

Ltac ts_arith :=
  unfold ts_le, ts_leb in *;
  rewrite ?orb_true_iff, ?andb_true_iff, ?Z.ltb_lt, ?Z.eqb_eq, ?Z.leb_le in *;
  lia.

Lemma ts_leb_refl (a : Timestamp) : ts_leb a a = true.
Proof. ts_arith. Qed.

Lemma ts_leb_trans (a b c : Timestamp) :
  ts_leb a b = true -> ts_leb b c = true -> ts_leb a c = true.
Proof. intros Hab Hbc. ts_arith. Qed.

Lemma ts_le_trans : Relations_1.Transitive ts_le.
Proof. intros a b c. apply ts_leb_trans. Qed.

(** ** Comparison with zero *)

Lemma Qltb_lt (x y : Q) : Qltb x y = true <-> (x < y)%Q.
Proof. unfold Qltb, Qlt. apply Z.ltb_lt. Qed.

Lemma Qltb_ge (x y : Q) : Qltb x y = false -> (y <= x)%Q.
Proof. unfold Qltb, Qle. intros H. apply Z.ltb_ge in H. exact H. Qed.

(** ** Generic list facts *)

Section ListFacts.
Context {A : Type}.
Variables f g : A -> bool.

Lemma filter_all (l : list A) :
  (forall x, In x l -> f x = true) -> filter f l = l.
Proof.
  induction l as [|a l IH]; simpl; intros H; [reflexivity|].
  rewrite (H a (or_introl eq_refl)). f_equal. apply IH. auto.
Qed.

Lemma filter_none (l : list A) :
  (forall x, In x l -> f x = false) -> filter f l = [].
Proof.
  induction l as [|a l IH]; simpl; intros H; [reflexivity|].
  rewrite (H a (or_introl eq_refl)). apply IH. auto.
Qed.

Lemma filter_filter_andb (l : list A) :
  filter f (filter g l) = filter (fun x => f x && g x) l.
Proof.
  induction l as [|a l IH]; simpl; [reflexivity|].
  destruct (g a); simpl.
  - rewrite andb_true_r. destruct (f a); now rewrite IH.
  - rewrite andb_false_r. exact IH.
Qed.

Variable R : A -> A -> Prop.

Lemma StronglySorted_app_le (l1 l2 : list A) :
  StronglySorted R (l1 ++ l2) ->
  forall x y, In x l1 -> In y l2 -> R x y.
Proof.
  induction l1 as [|a l1 IH]; simpl; intros HS x y Hx Hy; [contradiction|].
  inversion HS as [|? ? HS' Hall]; subst.
  destruct Hx as [<-|Hx].
  - rewrite Forall_forall in Hall. apply Hall. apply in_or_app. now right.
  - now apply IH.
Qed.
End ListFacts.

(** ** The Record Reader *)

Lemma ReadData_index (fileName : File) :
  index (fst (ReadData fileName)) = map f_date fileName.
Proof.
  unfold ReadData, index, remove_negative, read_csv. simpl.
  rewrite !map_map. apply map_ext. intros l. simpl.
  now destruct (lt_zero (parse_discharge (f_discharge l))).
Qed.

Lemma ReadData_count (fileName : File) :
  snd (ReadData fileName)
  = (count_na_fields fileName + count_negative fileName)%nat.
Proof.
  unfold ReadData, isna_sum, count_na_fields, count_negative,
    remove_negative, read_csv. simpl.
  induction fileName as [|l file IH]; simpl; [reflexivity|].
  destruct (f_discharge l) as [q| |]; simpl.
  - destruct (Qltb q 0); simpl; rewrite IH; lia.
  - rewrite IH. lia.
  - rewrite IH. lia.
Qed.

Lemma ReadData_ok (fileName : File) :
  Forall (fun r => discharge_ok (Discharge r)) (fst (ReadData fileName)).
Proof.
  unfold ReadData, remove_negative, read_csv. simpl.
  rewrite map_map. apply Forall_forall. intros r Hr.
  apply in_map_iff in Hr. destruct Hr as [l [<- _]]. simpl.
  destruct (f_discharge l) as [q| |]; simpl; try exact I.
  destruct (Qltb q 0) eqn:E; simpl; [exact I|].
  now apply Qltb_ge.
Qed.

Example ReadData_sample_file :
  map Discharge (fst (ReadData sample_file)) = [Some 12%Q; None; None] /\
  snd (ReadData sample_file) = 2%nat.
Proof. split; reflexivity. Qed.

(** C4: a line with a discharge below zero stays in the table, at the same
    place and with its date (the table has as many rows as the file has
    lines and the same dates), its discharge is the missing marker (so
    neither the number read nor zero), and the count returned is the number
    of fields read as missing plus the number of negative discharges: each
    replacement adds one to it. *)
Theorem ReadData_negative_is_missing (fileName : File) :
  List.length (fst (ReadData fileName)) = List.length fileName /\
  index (fst (ReadData fileName)) = map f_date fileName /\
  (forall i l q,
      nth_error fileName i = Some l ->
      f_discharge l = Numeric q ->
      (q < 0)%Q ->
      exists r, nth_error (fst (ReadData fileName)) i = Some r /\
                Date r = f_date l /\
                Discharge r = None /\
                Discharge r <> Some 0%Q /\
                Discharge r <> Some q) /\
  snd (ReadData fileName)
  = (count_na_fields fileName + count_negative fileName)%nat.
Proof.
  split; [|split; [|split]].
  - unfold ReadData, remove_negative, read_csv. simpl.
    now rewrite !length_map.
  - apply ReadData_index.
  - intros i l q Hi Hl Hq.
    unfold ReadData, remove_negative, read_csv. simpl.
    rewrite map_map, nth_error_map, Hi. simpl.
    rewrite Hl. simpl.
    apply Qltb_lt in Hq. rewrite Hq.
    eexists. split; [reflexivity|]. simpl.
    repeat split; discriminate.
  - apply ReadData_count.
Qed.

Lemma ReadData_negative_is_missing_witness :
  exists r, nth_error (fst (ReadData sample_file)) 1 = Some r /\
            Date r = jan 2 /\
            Discharge r = None /\
            Discharge r <> Some 0%Q /\
            Discharge r <> Some (-5)%Q.
Proof.
  apply (proj1 (proj2 (proj2 (ReadData_negative_is_missing sample_file)))
           1%nat (line (jan 2) (Numeric (-5))) (-5)%Q).
  - reflexivity.
  - reflexivity.
  - reflexivity.
Defined.

(** ** The Range Clipper *)

Lemma slice_dates_in (DataDF : DataFrame) (s e : Timestamp) (r : Row) :
  In r (slice_dates DataDF s e) <->
  In r DataDF /\ ts_le s (Date r) /\ ts_le (Date r) e.
Proof.
  unfold slice_dates, in_window, ts_le.
  rewrite filter_In, andb_true_iff. tauto.
Qed.

Lemma slice_dates_identity (DataDF : DataFrame) (s e : Timestamp) :
  chronological DataDF ->
  first_date DataDF = Some s ->
  last_date DataDF = Some e ->
  slice_dates DataDF s e = DataDF.
Proof.
  unfold chronological, first_date, last_date, slice_dates.
  intros Hsorted Hfirst Hlast.
  apply Sorted_StronglySorted in Hsorted; [|exact ts_le_trans].
  apply filter_all. intros r Hr.
  assert (Hd : In (Date r) (index DataDF)) by (now apply in_map).
  unfold in_window. apply andb_true_iff. split.
  - destruct (index DataDF) as [|a t]; [discriminate|].
    simpl in Hfirst. injection Hfirst as ->.
    inversion Hsorted as [|? ? _ Hall]; subst.
    destruct Hd as [<-|Hd]; [apply ts_leb_refl|].
    rewrite Forall_forall in Hall. now apply Hall.
  - destruct (rev (index DataDF)) as [|a t] eqn:Hrev; [discriminate|].
    simpl in Hlast. injection Hlast as ->.
    assert (Hidx : index DataDF = rev t ++ [e]).
    { rewrite <- (rev_involutive (index DataDF)), Hrev. reflexivity. }
    rewrite Hidx in Hsorted, Hd.
    apply in_app_or in Hd. destruct Hd as [Hd|[<-|[]]].
    + apply (StronglySorted_app_le _ _ _ Hsorted); simpl; auto.
    + apply ts_leb_refl.
Qed.

Lemma is_monotonic_increasing_Sorted (dates : list Timestamp) :
  Sorted ts_le dates -> is_monotonic_increasing dates = true.
Proof.
  induction 1 as [|a rest Hs IH Hhd]; [reflexivity|].
  destruct Hhd as [|b rest' Hab]; [reflexivity|].
  change (ts_leb a b && is_monotonic_increasing (b :: rest') = true).
  now rewrite Hab, IH.
Qed.

Lemma ClipData_call_chronological
      (unordered_slice : DataFrame -> Timestamp -> Timestamp -> Lookup DataFrame)
      (DataDF : DataFrame) (s e : Timestamp) :
  chronological DataDF ->
  ClipData_call unordered_slice DataDF s e = Found (ClipData DataDF s e).
Proof.
  intros Hs. unfold ClipData_call, getitem_slice.
  now rewrite (is_monotonic_increasing_Sorted _ Hs).
Qed.

Lemma isna_sum_slice_dates (DataDF : DataFrame) (s e : Timestamp) :
  isna_sum (slice_dates DataDF s e) = missing_between s e DataDF.
Proof.
  unfold isna_sum, slice_dates, in_window.
  induction DataDF as [|r rest IH]; simpl; [reflexivity|].
  destruct (ts_leb s (Date r) && ts_leb (Date r) e); simpl.
  - destruct (Discharge r); simpl; now rewrite IH.
  - rewrite IH. now destruct (Discharge r).
Qed.

(** C5: on a table in chronological order, whatever the two dates, the call
    of the Range Clipper returns a table and a count and raises nothing;
    every row of the table returned is a row of the input, every date of its
    index is a date of the input index and lies between the start and the
    end date, both included, and the count returned is the number of input
    rows dated in that range whose discharge is the missing marker. *)
Theorem ClipData_window
        (unordered_slice : DataFrame -> Timestamp -> Timestamp -> Lookup DataFrame)
        (DataDF : DataFrame) (startDate endDate : Timestamp) :
  chronological DataDF ->
  exists out MissingValues,
    ClipData_call unordered_slice DataDF startDate endDate
    = Found (out, MissingValues) /\
    (forall r, In r out -> In r DataDF) /\
    (forall d, In d (index out) ->
               In d (index DataDF) /\ ts_le startDate d /\ ts_le d endDate) /\
    MissingValues = missing_between startDate endDate DataDF.
Proof.
  intros Hs. rewrite (ClipData_call_chronological _ _ _ _ Hs).
  unfold ClipData.
  eexists. eexists. split; [reflexivity|]. split; [|split].
  - intros r Hr. now apply slice_dates_in in Hr.
  - intros d Hd. unfold index in *.
    apply in_map_iff in Hd. destruct Hd as [r [<- Hr]].
    apply slice_dates_in in Hr. destruct Hr as [Hr Hw].
    split; [now apply in_map|exact Hw].
  - apply isna_sum_slice_dates.
Qed.

Lemma ClipData_window_witness :
  exists out MissingValues,
    ClipData_call (fun _ _ _ => KeyError) (fst (ReadData sample_file))
                  (jan 2) (jan 3)
    = Found (out, MissingValues) /\
    (forall r, In r out -> In r (fst (ReadData sample_file))) /\
    (forall d, In d (index out) ->
               In d (index (fst (ReadData sample_file)))
               /\ ts_le (jan 2) d /\ ts_le d (jan 3)) /\
    MissingValues = missing_between (jan 2) (jan 3) (fst (ReadData sample_file)).
Proof.
  apply (ClipData_window (fun _ _ _ => KeyError) (fst (ReadData sample_file))
                         (jan 2) (jan 3)).
  unfold chronological. simpl. repeat constructor.
Defined.

(** C7: every discharge of the table the Record Reader returns is the
    missing marker or a number that is at least zero, and a table with that
    property keeps it through the Range Clipper. *)
Theorem discharge_never_negative :
  (forall fileName,
      Forall (fun r => discharge_ok (Discharge r)) (fst (ReadData fileName))) /\
  (forall DataDF startDate endDate,
      Forall (fun r => discharge_ok (Discharge r)) DataDF ->
      Forall (fun r => discharge_ok (Discharge r))
             (fst (ClipData DataDF startDate endDate))).
Proof.
  split.
  - apply ReadData_ok.
  - intros DataDF s e Hall. unfold ClipData. simpl.
    rewrite Forall_forall in *. intros r Hr.
    apply slice_dates_in in Hr. now apply Hall.
Qed.

Lemma discharge_never_negative_witness :
  Forall (fun r => discharge_ok (Discharge r))
         (fst (ClipData (fst (ReadData sample_file)) (jan 2) (jan 3))).
Proof.
  apply (proj2 discharge_never_negative).
  apply (proj1 discharge_never_negative).
Defined.

(** C9: on a table in chronological order, when no row is dated between
    the start and the end date, the call of the Range Clipper raises nothing
    and returns the empty table together with the count 0, a defined
    number; a window whose start is after its end is one such case. *)
Theorem ClipData_empty_window
        (unordered_slice : DataFrame -> Timestamp -> Timestamp -> Lookup DataFrame)
        (DataDF : DataFrame) (startDate endDate : Timestamp) :
  chronological DataDF ->
  ((forall r, In r DataDF ->
              ~ (ts_le startDate (Date r) /\ ts_le (Date r) endDate)) ->
   ClipData_call unordered_slice DataDF startDate endDate
   = Found ([], 0%nat)) /\
  (ts_leb startDate endDate = false ->
   ClipData_call unordered_slice DataDF startDate endDate
   = Found ([], 0%nat)).
Proof.
  intros Hs. rewrite (ClipData_call_chronological _ _ _ _ Hs).
  assert (Hnone : (forall r, In r DataDF ->
                     ~ (ts_le startDate (Date r) /\ ts_le (Date r) endDate)) ->
                  Found (ClipData DataDF startDate endDate)
                  = Found ([], 0%nat)).
  { intros H. unfold ClipData, slice_dates.
    rewrite filter_none; [reflexivity|].
    intros r Hr. unfold in_window.
    destruct (ts_leb startDate (Date r)) eqn:E1; [|reflexivity].
    destruct (ts_leb (Date r) endDate) eqn:E2; [|reflexivity].
    elim (H r Hr). now split. }
  split; [exact Hnone|].
  intros Hgt. apply Hnone. intros r _ [H1 H2].
  unfold ts_le in *. rewrite (ts_leb_trans _ _ _ H1 H2) in Hgt. discriminate.
Qed.

Lemma ClipData_empty_window_witness :
  ClipData_call (fun _ _ _ => KeyError) (fst (ReadData sample_file))
                (jan 3) (jan 1) = Found ([], 0%nat) /\
  ClipData_call (fun _ _ _ => KeyError) (fst (ReadData sample_file))
                (jan 4) (jan 9) = Found ([], 0%nat).
Proof.
  assert (Hs : chronological (fst (ReadData sample_file))).
  { unfold chronological. simpl. repeat constructor. }
  split.
  - apply (proj2 (ClipData_empty_window (fun _ _ _ => KeyError)
                    (fst (ReadData sample_file)) (jan 3) (jan 1) Hs)).
    reflexivity.
  - apply (proj1 (ClipData_empty_window (fun _ _ _ => KeyError)
                    (fst (ReadData sample_file)) (jan 4) (jan 9) Hs)).
    simpl. intros r [<-|[<-|[<-|[]]]] [H _]; discriminate H.
Defined.

(** C6: for a file whose lines are in date order, the call of the Range
    Clipper on the table read from it, with the first and the last date of
    that table as start and end, raises nothing and gives back the table
    and the count the Record Reader returned. *)
Theorem ClipData_own_range
        (unordered_slice : DataFrame -> Timestamp -> Timestamp -> Lookup DataFrame)
        (fileName : File) (startDate endDate : Timestamp) :
  Sorted ts_le (map f_date fileName) ->
  first_date (fst (ReadData fileName)) = Some startDate ->
  last_date (fst (ReadData fileName)) = Some endDate ->
  ClipData_call unordered_slice (fst (ReadData fileName)) startDate endDate
  = Found (ReadData fileName).
Proof.
  intros Hsorted Hfirst Hlast.
  assert (Hs : chronological (fst (ReadData fileName))).
  { unfold chronological. now rewrite ReadData_index. }
  rewrite (ClipData_call_chronological _ _ _ _ Hs).
  unfold ClipData.
  rewrite slice_dates_identity; [reflexivity|exact Hs|exact Hfirst|exact Hlast].
Qed.

Lemma ClipData_own_range_witness :
  ClipData_call (fun _ _ _ => KeyError) (fst (ReadData sample_file))
                (jan 1) (jan 3)
  = Found (ReadData sample_file).
Proof.
  apply (ClipData_own_range (fun _ _ _ => KeyError) sample_file (jan 1) (jan 3)).
  - simpl. repeat constructor.
  - reflexivity.
  - reflexivity.
Defined.

(** ** The Monthly Averager *)

Lemma GetMonthlyAverages_nth (MoDataDF : MetricsDF) (i : nat) :
  (i < 12)%nat ->
  nth_error (GetMonthlyAverages MoDataDF) i
  = Some (Z.of_nat i + 1,
          mean (loc MoDataDF (month_is (m_index MoDataDF) (Z.of_nat i + 1)))).
Proof.
  intros Hi.
  do 12 (destruct i as [|i]; [reflexivity|]).
  lia.
Qed.

Lemma mean_nth (df : MetricsDF) (mask : list bool) (k : nat)
      (name : string) (vals : list (option Q)) :
  nth_error (m_columns df) k = Some (name, vals) ->
  nth_error (mean (loc df mask)) k = Some (name, nanmean (select mask vals)).
Proof.
  intros Hk. unfold mean, loc. simpl.
  rewrite nth_error_app1.
  - rewrite map_map, nth_error_map, Hk. reflexivity.
  - rewrite !length_map. apply nth_error_Some. rewrite Hk. discriminate.
Qed.

Lemma bucket_count (m : Z) (dates : list Timestamp) (vals : list (option Q)) :
  notna_count (select (month_is dates m) vals)
  = List.length (bucket_values m dates vals).
Proof.
  unfold notna_count. revert vals.
  induction dates as [|d ds IH]; intros [|[q|] vs]; simpl; try reflexivity.
  - destruct (month d =? m); simpl; now rewrite IH.
  - destruct (month d =? m); simpl; now rewrite IH.
Qed.

Lemma bucket_sum (m : Z) (dates : list Timestamp) (vals : list (option Q)) :
  (nansum (select (month_is dates m) vals)
   == Qsum (bucket_values m dates vals))%Q.
Proof.
  revert vals.
  induction dates as [|d ds IH]; intros [|[q|] vs]; simpl; try reflexivity.
  - destruct (month d =? m); simpl; now rewrite IH.
  - destruct (month d =? m); simpl; rewrite IH; [|reflexivity].
    apply Qplus_0_l.
Qed.

Lemma nanmean_bucket (m : Z) (dates : list Timestamp) (vals : list (option Q)) :
  match bucket_values m dates vals with
  | [] => nanmean (select (month_is dates m) vals) = None
  | _ :: _ =>
      exists q, nanmean (select (month_is dates m) vals) = Some q /\
                (q == arithmetic_mean (bucket_values m dates vals))%Q
  end.
Proof.
  unfold nanmean. rewrite bucket_count.
  pose proof (bucket_sum m dates vals) as Hsum.
  destruct (bucket_values m dates vals) as [|q0 b] eqn:Hb.
  - reflexivity.
  - replace (List.length (q0 :: b) =? 0)%nat with false by reflexivity.
    eexists. split; [reflexivity|].
    unfold arithmetic_mean. now rewrite Hsum.
Qed.

(** C2: for a statistic column and a month of the year, the cell of the
    result in that month's column and that statistic's row is the sum of the
    non-missing values of the statistic on the rows dated in that month,
    divided by their number, when there is at least one; missing values
    contribute neither to the sum nor to the number.  When there is none the
    cell is missing.  With 10 and 20 in the Januaries of two years the cell
    of month 1 is 15, and a month with only a missing value has a missing
    cell. *)
Theorem GetMonthlyAverages_cell :
  (forall (MoDataDF : MetricsDF) (m : Z) (k : nat) (name : string)
          (vals : list (option Q)),
      1 <= m <= 12 ->
      nth_error (m_columns MoDataDF) k = Some (name, vals) ->
      exists ser c,
        nth_error (GetMonthlyAverages MoDataDF) (Z.to_nat (m - 1))
        = Some (m, ser) /\
        nth_error ser k = Some (name, c) /\
        (bucket_values m (m_index MoDataDF) vals = [] -> c = None) /\
        (bucket_values m (m_index MoDataDF) vals <> [] ->
         exists q, c = Some q /\
                   (q == arithmetic_mean
                           (bucket_values m (m_index MoDataDF) vals))%Q)) /\
  (exists ser q,
      nth_error (GetMonthlyAverages sample_monthly) 0 = Some (1, ser) /\
      nth_error ser 0 = Some ("Mean Flow", Some q) /\ (q == 15)%Q) /\
  (exists ser,
      nth_error (GetMonthlyAverages sample_monthly) 1 = Some (2, ser) /\
      nth_error ser 0 = Some ("Mean Flow", None)).
Proof.
  split; [|split].
  - intros MoDataDF m k name vals Hm Hk.
    assert (Hi : (Z.to_nat (m - 1) < 12)%nat) by lia.
    pose proof (GetMonthlyAverages_nth MoDataDF _ Hi) as Hnth.
    replace (Z.of_nat (Z.to_nat (m - 1)) + 1) with m in Hnth by lia.
    exists (mean (loc MoDataDF (month_is (m_index MoDataDF) m))).
    exists (nanmean (select (month_is (m_index MoDataDF) m) vals)).
    split; [exact Hnth|]. split; [now apply mean_nth|].
    pose proof (nanmean_bucket m (m_index MoDataDF) vals) as Hb.
    destruct (bucket_values m (m_index MoDataDF) vals) as [|q0 b].
    + split; [intros _; exact Hb|]. intros Hne. now elim Hne.
    + split; [discriminate|]. intros _. exact Hb.
  - eexists. eexists. split; [reflexivity|]. split; [reflexivity|].
    reflexivity.
  - eexists. split; reflexivity.
Qed.

Lemma GetMonthlyAverages_cell_witness :
  exists ser c,
    nth_error (GetMonthlyAverages sample_monthly) (Z.to_nat (1 - 1))
    = Some (1, ser) /\
    nth_error ser 0 = Some ("Mean Flow", c) /\
    (bucket_values 1 (m_index sample_monthly) [Some 10%Q; Some 20%Q; None] = []
     -> c = None) /\
    (bucket_values 1 (m_index sample_monthly) [Some 10%Q; Some 20%Q; None] <> []
     -> exists q, c = Some q /\
                  (q == arithmetic_mean
                          (bucket_values 1 (m_index sample_monthly)
                                         [Some 10%Q; Some 20%Q; None]))%Q).
Proof.
  apply (proj1 GetMonthlyAverages_cell sample_monthly 1 0%nat "Mean Flow"
                [Some 10%Q; Some 20%Q; None]).
  - lia.
  - reflexivity.
Defined.

Lemma labels_mean_loc (df : MetricsDF) (mask : list bool) :
  labels (mean (loc df mask))
  = map fst (m_columns df)
    ++ match select mask (m_index df) with
       | [] => ["Station"]
       | _ :: _ => []
       end.
Proof.
  unfold labels, mean, loc. simpl. rewrite map_app, !map_map. f_equal.
  now destruct (select mask (m_index df)).
Qed.

Lemma select_month_nil (m : Z) (dates : list Timestamp) :
  select (month_is dates m) dates = [] <->
  (forall d, In d dates -> month d <> m).
Proof.
  induction dates as [|d ds IH]; simpl.
  - split; [intros _ x []|reflexivity].
  - destruct (Z.eqb_spec (month d) m) as [E|E].
    + split; [discriminate|]. intros H. elim (H d (or_introl eq_refl) E).
    + rewrite IH. split.
      * intros H x [<-|Hx]; [exact E|now apply H].
      * intros H x Hx. apply H. now right.
Qed.

Lemma GetMonthlyAverages_In (MoDataDF : MetricsDF) (m : Z) (ser : Series string) :
  In (m, ser) (GetMonthlyAverages MoDataDF) <->
  1 <= m <= 12 /\
  ser = mean (loc MoDataDF (month_is (m_index MoDataDF) m)).
Proof.
  split.
  - intros Hin. apply In_nth_error in Hin. destruct Hin as [i Hi].
    assert (Hlt : (i < 12)%nat).
    { change 12%nat with (List.length (GetMonthlyAverages MoDataDF)).
      apply nth_error_Some. rewrite Hi. discriminate. }
    rewrite (GetMonthlyAverages_nth MoDataDF i Hlt) in Hi.
    injection Hi as <- <-. split; [lia|reflexivity].
  - intros [Hm ->]. apply nth_error_In with (Z.to_nat (m - 1)).
    rewrite GetMonthlyAverages_nth by lia.
    now replace (Z.of_nat (Z.to_nat (m - 1)) + 1) with m by lia.
Qed.

Lemma row_labels_spec (MoDataDF : MetricsDF) (name : string) :
  In name (row_labels (GetMonthlyAverages MoDataDF)) <->
  In name (map fst (m_columns MoDataDF)) \/
  (name = "Station" /\
   exists m, 1 <= m <= 12 /\
             forall d, In d (m_index MoDataDF) -> month d <> m).
Proof.
  unfold row_labels. rewrite in_flat_map. split.
  - intros [[m ser] [Hc Hin]]. simpl in Hin.
    apply GetMonthlyAverages_In in Hc. destruct Hc as [Hm ->].
    rewrite labels_mean_loc in Hin. apply in_app_or in Hin.
    destruct Hin as [Hin|Hin]; [now left|]. right.
    destruct (select (month_is (m_index MoDataDF) m) (m_index MoDataDF))
      eqn:E; [|contradiction].
    destruct Hin as [<-|[]]. split; [reflexivity|].
    exists m. split; [exact Hm|]. now apply select_month_nil.
  - intros [Hin|[-> [m [Hm Hnone]]]].
    + exists (1, mean (loc MoDataDF (month_is (m_index MoDataDF) 1))).
      split; [apply GetMonthlyAverages_In; split; [lia|reflexivity]|].
      simpl. rewrite labels_mean_loc. apply in_or_app. now left.
    + exists (m, mean (loc MoDataDF (month_is (m_index MoDataDF) m))).
      split; [apply GetMonthlyAverages_In; split; [exact Hm|reflexivity]|].
      simpl. rewrite labels_mean_loc. apply in_or_app. right.
      apply select_month_nil in Hnone. rewrite Hnone. now left.
Qed.

(** C3, the claim at a table with rows in January and February only: the
    column of July holds, besides the statistic, an entry labelled Station,
    so the table returned has a row Station although the input has the one
    statistic column Mean Flow. *)
Lemma GetMonthlyAverages_station_row :
  nth_error (GetMonthlyAverages sample_monthly) 6
  = Some (7, [("Mean Flow", None); ("Station", None)]) /\
  In "Station" (row_labels (GetMonthlyAverages sample_monthly)) /\
  map fst (m_columns sample_monthly) = ["Mean Flow"].
Proof.
  split; [reflexivity|]. split; [|reflexivity].
  simpl. tauto.
Qed.

(** C3, amended: whatever the input table and the order of its rows, the
    result has exactly the twelve columns 1, 2, ..., 12 in that order.  Its
    rows are the statistic columns of the input, and a row Station besides
    them exactly when some calendar month has no row in the input.  When
    every calendar month has a row, each column has one row per statistic
    column of the input, labelled and ordered as the input's columns are. *)
Theorem GetMonthlyAverages_shape (MoDataDF : MetricsDF) :
  columns (GetMonthlyAverages MoDataDF) = [1; 2; 3; 4; 5; 6; 7; 8; 9; 10; 11; 12] /\
  List.length (GetMonthlyAverages MoDataDF) = 12%nat /\
  (forall name,
      In name (row_labels (GetMonthlyAverages MoDataDF)) <->
      In name (map fst (m_columns MoDataDF)) \/
      (name = "Station" /\
       exists m, 1 <= m <= 12 /\
                 forall d, In d (m_index MoDataDF) -> month d <> m)) /\
  ((forall m, 1 <= m <= 12 ->
              exists d, In d (m_index MoDataDF) /\ month d = m) ->
   forall m ser, In (m, ser) (GetMonthlyAverages MoDataDF) ->
                 labels ser = map fst (m_columns MoDataDF)).
Proof.
  split; [reflexivity|]. split; [reflexivity|]. split.
  - apply row_labels_spec.
  - intros Hall m ser Hin.
    apply GetMonthlyAverages_In in Hin. destruct Hin as [Hm ->].
    rewrite labels_mean_loc.
    destruct (select (month_is (m_index MoDataDF) m) (m_index MoDataDF))
      eqn:E; [|apply app_nil_r].
    destruct (Hall m Hm) as [d [Hd Hmd]].
    elim (proj1 (select_month_nil m (m_index MoDataDF)) E d Hd Hmd).
Qed.

Lemma GetMonthlyAverages_shape_witness :
  labels (mean (loc sample_year (month_is (m_index sample_year) 3)))
  = map fst (m_columns sample_year).
Proof.
  apply (proj2 (proj2 (proj2 (GetMonthlyAverages_shape sample_year)))) with (m := 3).
  - intros m Hm. exists (mkTimestamp 2019 m 15). split; [|reflexivity].
    apply (in_map (fun m => mkTimestamp 2019 m 15)). simpl. lia.
  - simpl. tauto.
Defined.

(** ** Sorting in descending order *)

Lemma insert_desc_perm (x : Q) (l : list Q) :
  Permutation (x :: l) (insert_desc x l).
Proof.
  induction l as [|y l IH]; simpl; [reflexivity|].
  destruct (Qle_bool y x); [reflexivity|].
  rewrite perm_swap. now apply perm_skip.
Qed.

Lemma sort_desc_perm (l : list Q) : Permutation l (sort_desc l).
Proof.
  induction l as [|x l IH]; simpl; [reflexivity|].
  rewrite <- insert_desc_perm. now apply perm_skip.
Qed.

Lemma insert_desc_HdRel (a x : Q) (l : list Q) :
  ge_Q a x -> HdRel ge_Q a l -> HdRel ge_Q a (insert_desc x l).
Proof.
  intros Hax Hal. destruct l as [|y l]; simpl; [now constructor|].
  destruct (Qle_bool y x); constructor; [exact Hax|].
  now inversion Hal.
Qed.

Lemma insert_desc_sorted (x : Q) (l : list Q) :
  Sorted ge_Q l -> Sorted ge_Q (insert_desc x l).
Proof.
  induction l as [|y l IH]; simpl; intros Hs.
  - repeat constructor.
  - destruct (Qle_bool y x) eqn:E.
    + constructor; [exact Hs|]. constructor. now apply Qle_bool_iff.
    + inversion Hs as [|? ? Hs' Hhd]; subst.
      constructor; [now apply IH|].
      apply insert_desc_HdRel; [|exact Hhd].
      unfold ge_Q. apply Qlt_le_weak. apply Qnot_le_lt.
      intros Hle. apply Qle_bool_iff in Hle. congruence.
Qed.

Lemma sort_desc_sorted (l : list Q) : Sorted ge_Q (sort_desc l).
Proof.
  induction l as [|x l IH]; simpl; [constructor|].
  now apply insert_desc_sorted.
Qed.

Lemma ge_Q_trans : Relations_1.Transitive ge_Q.
Proof. intros a b c Hab Hbc. unfold ge_Q in *. now apply Qle_trans with b. Qed.

Lemma StronglySorted_descending (l : list Q) :
  StronglySorted ge_Q l -> descending l.
Proof.
  induction 1 as [|a l Hs IH Hall]; intros i j x y Hij Hi Hj.
  - destruct i; discriminate.
  - destruct i as [|i]; destruct j as [|j]; simpl in *.
    + injection Hi as ->. injection Hj as ->. apply Qle_refl.
    + injection Hi as ->. rewrite Forall_forall in Hall.
      apply Hall. now apply nth_error_In with j.
    + lia.
    + apply (IH i j); [lia|exact Hi|exact Hj].
Qed.

Lemma sort_desc_descending (l : list Q) : descending (sort_desc l).
Proof.
  apply StronglySorted_descending, Sorted_StronglySorted.
  - exact ge_Q_trans.
  - apply sort_desc_sorted.
Qed.

Lemma sort_values_descending_numbers (vals : list Q) :
  sort_values_descending (map Some vals) = map Some (sort_desc vals).
Proof.
  unfold sort_values_descending.
  assert (Hf : filter isna (map Some vals) = []).
  { induction vals as [|x l IH]; simpl; [reflexivity|exact IH]. }
  assert (Hd : dropna (map Some vals) = vals).
  { clear Hf. induction vals as [|x l IH]; simpl; [reflexivity|].
    now rewrite IH. }
  now rewrite Hd, Hf, app_nil_r.
Qed.

(** ** The plotting positions *)

Lemma for_range_divide (n k i : nat) (st : LoopState) :
  n <> 0%nat ->
  for_range k i
    (fun i => x <- divide (Z.of_nat i + 1) (Z.of_nat n) ;; append x) st
  = (Returns tt,
     mkLoopState
       (pp st ++ map (position n) (seq i k))
       (divisions st ++ map (fun j => (Z.of_nat j + 1, Z.of_nat n)) (seq i k))).
Proof.
  intros Hn.
  set (body := fun i => x <- divide (Z.of_nat i + 1) (Z.of_nat n) ;; append x).
  assert (Hbody : forall i st,
             body i st
             = (Returns tt,
                mkLoopState (pp st ++ [position n i])
                            (divisions st ++ [(Z.of_nat i + 1, Z.of_nat n)]))).
  { intros j s. unfold body, bind, divide, truediv, append.
    replace (Z.of_nat n =? 0) with false by (symmetry; apply Z.eqb_neq; lia).
    reflexivity. }
  clearbody body. revert i st.
  induction k as [|k IH]; intros i st; simpl.
  - unfold ret. destruct st. simpl. now rewrite !app_nil_r.
  - unfold bind. rewrite Hbody, IH. simpl. now rewrite <- !app_assoc.
Qed.

Lemma plotting_positions_eq (peak : FloatSeries) :
  plotting_positions peak
  = (Returns (map (position (List.length peak)) (seq 0 (List.length peak))),
     map (fun j => (Z.of_nat j + 1, Z.of_nat (List.length peak)))
         (seq 0 (List.length peak))).
Proof.
  unfold plotting_positions, plotting_position_loop.
  destruct peak as [|c peak]; [reflexivity|].
  rewrite for_range_divide by discriminate. reflexivity.
Qed.

Lemma inject_nat_pos (n : nat) : n <> 0%nat -> (0 < inject_Z (Z.of_nat n))%Q.
Proof.
  intros Hn. change 0%Q with (inject_Z 0). rewrite <- Zlt_Qlt. lia.
Qed.

Lemma position_bounds (n i : nat) :
  (i < n)%nat -> (0 < position n i /\ position n i <= 1)%Q.
Proof.
  intros Hi. unfold position.
  assert (Hn : (0 < inject_Z (Z.of_nat n))%Q) by (apply inject_nat_pos; lia).
  split.
  - apply Qlt_shift_div_l; [exact Hn|].
    rewrite Qmult_0_l. change 0%Q with (inject_Z 0). rewrite <- Zlt_Qlt. lia.
  - apply Qle_shift_div_r; [exact Hn|].
    rewrite Qmult_1_l. rewrite <- Zle_Qle. lia.
Qed.

Lemma position_increasing (n i j : nat) :
  n <> 0%nat -> (i < j)%nat -> (position n i < position n j)%Q.
Proof.
  intros Hn Hij. unfold position, Qdiv.
  apply Qmult_lt_r.
  - apply Qinv_lt_0_compat. now apply inject_nat_pos.
  - rewrite <- Zlt_Qlt. lia.
Qed.

Lemma position_ratio (n i : nat) : (position n i == ratio (S i) n)%Q.
Proof.
  unfold position, ratio.
  replace (Z.of_nat (S i)) with (Z.of_nat i + 1) by lia. reflexivity.
Qed.

Lemma position_last (n : nat) : n <> 0%nat -> (position n (n - 1) == 1)%Q.
Proof.
  intros Hn. unfold position.
  replace (Z.of_nat (n - 1) + 1) with (Z.of_nat n) by lia.
  apply Qmult_inv_r. intros H0.
  pose proof (inject_nat_pos n Hn) as Hpos.
  rewrite H0 in Hpos. now apply (Qlt_irrefl 0).
Qed.

Lemma nth_error_positions (n i : nat) (p : Q) :
  nth_error (map (position n) (seq 0 n)) i = Some p ->
  (i < n)%nat /\ p = position n i.
Proof.
  intros H.
  assert (Hi : (i < n)%nat).
  { assert (Hlen : (i < List.length (map (position n) (seq 0 n)))%nat).
    { apply nth_error_Some. rewrite H. discriminate. }
    now rewrite length_map, length_seq in Hlen. }
  split; [exact Hi|].
  rewrite nth_error_map, nth_error_seq in H.
  replace (i <? n)%nat with true in H by (symmetry; apply Nat.ltb_lt; lia).
  simpl in H. now injection H as <-.
Qed.

Lemma sort_desc_length (l : list Q) :
  List.length (sort_desc l) = List.length l.
Proof. symmetry. apply Permutation_length, sort_desc_perm. Qed.

Lemma ExceedanceRanker_numbers (vals : list Q) :
  ExceedanceRanker (map Some vals)
  = (map Some (sort_desc vals),
     Returns (map (position (List.length vals)) (seq 0 (List.length vals)))).
Proof.
  unfold ExceedanceRanker.
  rewrite sort_values_descending_numbers, plotting_positions_eq. simpl.
  now rewrite length_map, sort_desc_length.
Qed.

Lemma nth_error_position (n i : nat) :
  (i < n)%nat ->
  nth_error (map (position n) (seq 0 n)) i = Some (position n i).
Proof.
  intros Hi. rewrite nth_error_map, nth_error_seq.
  replace (i <? n)%nat with true by (symmetry; apply Nat.ltb_lt; lia).
  reflexivity.
Qed.

(** C1: for a non-empty series of n numbers, the ranking returns the same
    numbers rearranged in descending order together with n plotting
    positions, without raising; the position at rank i, counted from 1, is
    i / n; every position is above 0 and at most 1; positions grow strictly
    with the rank; the first position, next to the largest value, is 1 / n
    and the last, next to the smallest value, is 1.  For the peaks 100, 50,
    75 the values come out as 100, 75, 50 with the positions 1/3, 2/3, 1. *)
Theorem ExceedanceRanker_positions :
  (forall vals : list Q,
      vals <> [] ->
      exists sorted positions,
        ExceedanceRanker (map Some vals)
        = (map Some sorted, Returns positions) /\
        Permutation vals sorted /\
        descending sorted /\
        List.length sorted = List.length vals /\
        List.length positions = List.length vals /\
        (forall i, (1 <= i <= List.length vals)%nat ->
           exists p, nth_error positions (i - 1) = Some p /\
                     (p == ratio i (List.length vals))%Q) /\
        (forall i p, nth_error positions i = Some p -> (0 < p /\ p <= 1)%Q) /\
        (forall i j p q, (i < j)%nat ->
           nth_error positions i = Some p ->
           nth_error positions j = Some q -> (p < q)%Q) /\
        (exists top p1,
            nth_error sorted 0 = Some top /\
            (forall x, In x vals -> (x <= top)%Q) /\
            nth_error positions 0 = Some p1 /\
            (p1 == ratio 1 (List.length vals))%Q) /\
        (exists bottom pn,
            nth_error sorted (List.length vals - 1) = Some bottom /\
            (forall x, In x vals -> (bottom <= x)%Q) /\
            nth_error positions (List.length vals - 1) = Some pn /\
            (pn == 1)%Q)) /\
  (exists p1 p2 p3,
      ExceedanceRanker (map Some sample_peaks)
      = (map Some [100; 75; 50]%Q, Returns [p1; p2; p3]) /\
      (p1 == 1 # 3)%Q /\ (p2 == 2 # 3)%Q /\ (p3 == 1)%Q).
Proof.
  split.
  - intros vals Hne.
    set (n := List.length vals).
    assert (Hn : n <> 0%nat).
    { unfold n. destruct vals; [now elim Hne|discriminate]. }
    pose proof (sort_desc_descending vals) as Hdesc.
    pose proof (sort_desc_perm vals) as Hperm.
    pose proof (sort_desc_length vals) as Hlen. fold n in Hlen.
    exists (sort_desc vals), (map (position n) (seq 0 n)).
    split; [apply ExceedanceRanker_numbers|].
    split; [exact Hperm|]. split; [exact Hdesc|]. split; [exact Hlen|].
    split; [now rewrite length_map, length_seq|].
    split; [|split; [|split; [|split]]].
    + intros i Hi. exists (position n (i - 1)).
      split; [apply nth_error_position; lia|].
      rewrite position_ratio. now replace (S (i - 1)) with i by lia.
    + intros i p Hp. apply nth_error_positions in Hp.
      destruct Hp as [Hi ->]. now apply position_bounds.
    + intros i j p q Hij Hp Hq.
      apply nth_error_positions in Hp. destruct Hp as [_ ->].
      apply nth_error_positions in Hq. destruct Hq as [_ ->].
      now apply position_increasing.
    + destruct (nth_error (sort_desc vals) 0) as [top|] eqn:Htop.
      2:{ apply nth_error_None in Htop. lia. }
      exists top, (position n 0).
      split; [reflexivity|]. split.
      * intros x Hx. apply (Permutation_in _ Hperm) in Hx.
        apply In_nth_error in Hx. destruct Hx as [i Hi].
        apply (Hdesc 0%nat i); [lia|exact Htop|exact Hi].
      * split; [apply nth_error_position; lia|apply position_ratio].
    + destruct (nth_error (sort_desc vals) (n - 1)) as [bottom|] eqn:Hbot.
      2:{ apply nth_error_None in Hbot. lia. }
      exists bottom, (position n (n - 1)).
      split; [reflexivity|]. split.
      * intros x Hx. apply (Permutation_in _ Hperm) in Hx.
        apply In_nth_error in Hx. destruct Hx as [i Hi].
        assert (Hlt : (i < n)%nat).
        { rewrite <- Hlen. apply nth_error_Some. rewrite Hi. discriminate. }
        apply (Hdesc i (n - 1)%nat); [lia|exact Hi|exact Hbot].
      * split; [apply nth_error_position; lia|now apply position_last].
  - eexists. eexists. eexists.
    split; [reflexivity|]. repeat split; reflexivity.
Qed.

Lemma ExceedanceRanker_positions_witness :
  exists sorted positions,
    ExceedanceRanker (map Some sample_peaks)
    = (map Some sorted, Returns positions) /\
    Permutation sample_peaks sorted /\
    descending sorted /\
    List.length sorted = List.length sample_peaks /\
    List.length positions = List.length sample_peaks /\
    (forall i, (1 <= i <= List.length sample_peaks)%nat ->
       exists p, nth_error positions (i - 1) = Some p /\
                 (p == ratio i (List.length sample_peaks))%Q) /\
    (forall i p, nth_error positions i = Some p -> (0 < p /\ p <= 1)%Q) /\
    (forall i j p q, (i < j)%nat ->
       nth_error positions i = Some p ->
       nth_error positions j = Some q -> (p < q)%Q) /\
    (exists top p1,
        nth_error sorted 0 = Some top /\
        (forall x, In x sample_peaks -> (x <= top)%Q) /\
        nth_error positions 0 = Some p1 /\
        (p1 == ratio 1 (List.length sample_peaks))%Q) /\
    (exists bottom pn,
        nth_error sorted (List.length sample_peaks - 1) = Some bottom /\
        (forall x, In x sample_peaks -> (bottom <= x)%Q) /\
        nth_error positions (List.length sample_peaks - 1) = Some pn /\
        (pn == 1)%Q).
Proof.
  apply (proj1 ExceedanceRanker_positions sample_peaks).
  discriminate.
Defined.

(** C10: on an empty series the loop returns the empty list and evaluates
    no division; on any series it returns a list and raises nothing, and no
    division it evaluates has the denominator 0. *)
Theorem plotting_positions_never_divide_by_zero :
  plotting_positions [] = (Returns [], []) /\
  (forall peak, exists positions,
      fst (plotting_positions peak) = Returns positions) /\
  (forall peak a b, In (a, b) (snd (plotting_positions peak)) -> b <> 0).
Proof.
  split; [reflexivity|]. split.
  - intros peak. rewrite plotting_positions_eq. simpl. eexists. reflexivity.
  - intros peak a b Hin. rewrite plotting_positions_eq in Hin. simpl in Hin.
    apply in_map_iff in Hin. destruct Hin as [j [Heq Hj]].
    injection Heq as _ <-. apply in_seq in Hj. lia.
Qed.

Lemma plotting_positions_never_divide_by_zero_witness : 3 <> 0.
Proof.
  apply (proj2 (proj2 plotting_positions_never_divide_by_zero)
           (map Some sample_peaks) 1 3).
  simpl. left. reflexivity.
Defined.

(** ** The figures *)

(** C8: run from matplotlib's initial state, the plotting calls of the
    script write six files and no more, named as the specification lists
    them and in that order, each saved at 96 dots per inch from a figure of
    size 9 by 6.5 with the base font size 20. *)
Theorem main_writes_six_images :
  map img_name (written (run main_script plt_initial)) = expected_names /\
  List.length (written (run main_script plt_initial)) = 6%nat /\
  NoDup (map img_name (written (run main_script plt_initial))) /\
  Forall (fun im => img_dpi im = 96 /\
                    img_figsize im = (9, 13 # 2)%Q /\
                    img_font_size im = 20%Q)
         (written (run main_script plt_initial)).
Proof.
  split; [reflexivity|]. split; [reflexivity|]. split.
  - vm_compute. repeat constructor; simpl; intuition discriminate.
  - vm_compute. repeat constructor.
Qed.

(** * Further properties of the code *)

(** ** More on the Record Reader *)

Lemma ReadData_nth (fileName : File) (i : nat) (l : FileLine) :
  nth_error fileName i = Some l ->
  nth_error (fst (ReadData fileName)) i
  = Some (if lt_zero (parse_discharge (f_discharge l))
          then mkRow (f_agency_cd l) (f_site_no l) (f_date l) None
                     (f_quality l)
          else mkRow (f_agency_cd l) (f_site_no l) (f_date l)
                     (parse_discharge (f_discharge l)) (f_quality l)).
Proof.
  intros Hi. unfold ReadData, remove_negative, read_csv. simpl.
  rewrite map_map, nth_error_map, Hi. reflexivity.
Qed.

(** X1: the gross error check changes nothing else.  Every line of the file
    gives the row at the same place with the same agency code, site number,
    date and quality flag, and a discharge that is a number at least 0 is
    kept as it was read. *)
Theorem ReadData_keeps_valid_rows (fileName : File) (i : nat) (l : FileLine) :
  nth_error fileName i = Some l ->
  exists r,
    nth_error (fst (ReadData fileName)) i = Some r /\
    agency_cd r = f_agency_cd l /\
    site_no r = f_site_no l /\
    Date r = f_date l /\
    Quality r = f_quality l /\
    (forall q, f_discharge l = Numeric q -> (0 <= q)%Q ->
               Discharge r = Some q).
Proof.
  intros Hi. rewrite (ReadData_nth _ _ _ Hi).
  eexists. split; [reflexivity|].
  destruct (lt_zero (parse_discharge (f_discharge l))) eqn:E;
    simpl; repeat split; intros q Hq Hpos; rewrite Hq in *; simpl in *.
  - apply Qltb_lt in E. now apply Qle_not_lt in Hpos.
  - reflexivity.
Qed.

Lemma ReadData_keeps_valid_rows_witness :
  exists r,
    nth_error (fst (ReadData sample_file)) 0 = Some r /\
    agency_cd r = "USGS" /\
    site_no r = "03335000" /\
    Date r = jan 1 /\
    Quality r = "A" /\
    (forall q, Numeric 12 = Numeric q -> (0 <= q)%Q -> Discharge r = Some q).
Proof.
  apply (ReadData_keeps_valid_rows sample_file 0 (line (jan 1) (Numeric 12))).
  reflexivity.
Defined.

Lemma filter_length_zero {A : Type} (f : A -> bool) (l : list A) :
  List.length (filter f l) = 0%nat <-> (forall x, In x l -> f x = false).
Proof.
  induction l as [|a l IH]; simpl.
  - split; [intros _ x []|reflexivity].
  - destruct (f a) eqn:E; simpl.
    + split; [discriminate|]. intros H.
      specialize (H a (or_introl eq_refl)). congruence.
    + rewrite IH. split.
      * intros H x [<-|Hx]; auto.
      * intros H x Hx. apply H. now right.
Qed.

(** X2: the count the Record Reader returns is at most the number of lines,
    and it is 0 exactly when every line carries a number that is at least
    0. *)
Theorem ReadData_count_zero_iff (fileName : File) :
  (snd (ReadData fileName) <= List.length fileName)%nat /\
  (snd (ReadData fileName) = 0%nat <->
   forall l, In l fileName ->
             exists q, f_discharge l = Numeric q /\ (0 <= q)%Q).
Proof.
  split.
  - unfold ReadData, isna_sum. simpl.
    eapply Nat.le_trans; [apply filter_length_le|].
    unfold remove_negative, read_csv. rewrite !length_map. apply Nat.le_refl.
  - rewrite ReadData_count. split.
    + intros H0 l Hl.
      assert (Hna : count_na_fields fileName = 0%nat) by lia.
      assert (Hneg : count_negative fileName = 0%nat) by lia.
      unfold count_na_fields in Hna. unfold count_negative in Hneg.
      rewrite filter_length_zero in Hna, Hneg.
      specialize (Hna l Hl). specialize (Hneg l Hl).
      destruct (f_discharge l) as [q| |]; simpl in *; try discriminate.
      exists q. split; [reflexivity|]. now apply Qltb_ge.
    + intros Hall.
      assert (Hna : count_na_fields fileName = 0%nat).
      { apply filter_length_zero. intros l Hl.
        destruct (Hall l Hl) as [q [-> _]]. reflexivity. }
      assert (Hneg : count_negative fileName = 0%nat).
      { apply filter_length_zero. intros l Hl.
        destruct (Hall l Hl) as [q [-> Hq]]. simpl.
        destruct (Qltb q 0) eqn:E; [|reflexivity].
        apply Qltb_lt in E. now apply Qle_not_lt in Hq. }
      lia.
Qed.

Lemma ReadData_count_zero_iff_witness :
  snd (ReadData unsorted_file) = 0%nat.
Proof.
  apply (proj2 (proj2 (ReadData_count_zero_iff unsorted_file))).
  intros l [<-|[<-|[<-|[]]]]; eexists; (split; [reflexivity|]);
    unfold Qle; simpl; lia.
Defined.

(** ** More on the Range Clipper *)

Section FilterLength.
Context {A : Type}.
Variables f g : A -> bool.

Lemma filter_length_mono (l : list A) :
  (forall x, In x l -> f x = true -> g x = true) ->
  (List.length (filter f l) <= List.length (filter g l))%nat.
Proof.
  induction l as [|a l IH]; simpl; intros H; [apply Nat.le_refl|].
  assert (IH' : (List.length (filter f l) <= List.length (filter g l))%nat).
  { apply IH. intros x Hx. apply H. now right. }
  destruct (f a) eqn:E.
  - rewrite (H a (or_introl eq_refl) E). simpl. lia.
  - destruct (g a); simpl; lia.
Qed.

Lemma filter_incl_mono (l : list A) :
  (forall x, In x l -> f x = true -> g x = true) ->
  forall x, In x (filter f l) -> In x (filter g l).
Proof.
  intros H x Hx. apply filter_In in Hx. destruct Hx as [Hin Hf].
  apply filter_In. split; [exact Hin|now apply H].
Qed.
End FilterLength.

Lemma in_window_widen (s e s' e' : Timestamp) (r : Row) :
  ts_le s' s -> ts_le e e' ->
  in_window s e r = true -> in_window s' e' r = true.
Proof.
  unfold in_window, ts_le. intros Hs He H.
  apply andb_true_iff in H. destruct H as [H1 H2].
  apply andb_true_iff. split.
  - exact (ts_leb_trans _ _ _ Hs H1).
  - exact (ts_leb_trans _ _ _ H2 He).
Qed.

(** X3: clipping never reports more missing values than the table holds:
    the count the Range Clipper returns is at most the number of missing
    discharges of its input and at most the number of rows it keeps; after
    the Record Reader it is at most the count the reader returned. *)
Theorem ClipData_count_le (DataDF : DataFrame) (startDate endDate : Timestamp) :
  (snd (ClipData DataDF startDate endDate) <= isna_sum DataDF)%nat /\
  (snd (ClipData DataDF startDate endDate)
   <= List.length (fst (ClipData DataDF startDate endDate)))%nat /\
  (forall fileName,
      (snd (ClipData (fst (ReadData fileName)) startDate endDate)
       <= snd (ReadData fileName))%nat).
Proof.
  assert (H : forall df,
             (snd (ClipData df startDate endDate) <= isna_sum df)%nat).
  { intros df. unfold ClipData, isna_sum, slice_dates. simpl.
    rewrite filter_filter_andb. apply filter_length_mono.
    intros x _ Hx. now apply andb_true_iff in Hx. }
  split; [apply H|]. split.
  - unfold ClipData, isna_sum. simpl. apply filter_length_le.
  - intros fileName. apply H.
Qed.

(** X4: on a table in chronological order, two clips in a row keep the
    rows dated in both windows, whatever the order of the two clips; when
    the second window lies inside the first, the result is the clip to the
    second window alone, so clipping twice to the same window changes
    nothing. *)
Theorem ClipData_compose (DataDF : DataFrame) (s1 e1 s2 e2 : Timestamp) :
  chronological DataDF ->
  (forall r, In r (fst (ClipData (fst (ClipData DataDF s1 e1)) s2 e2)) <->
             In r DataDF /\ in_window s1 e1 r = true
             /\ in_window s2 e2 r = true) /\
  ClipData (fst (ClipData DataDF s1 e1)) s2 e2
  = ClipData (fst (ClipData DataDF s2 e2)) s1 e1 /\
  (ts_le s1 s2 -> ts_le e2 e1 ->
   ClipData (fst (ClipData DataDF s1 e1)) s2 e2 = ClipData DataDF s2 e2) /\
  ClipData (fst (ClipData DataDF s1 e1)) s1 e1 = ClipData DataDF s1 e1.
Proof.
  intros _.
  assert (Hnest : forall a b c d, ts_le a c -> ts_le d b ->
             ClipData (fst (ClipData DataDF a b)) c d = ClipData DataDF c d).
  { intros a b c d Hac Hdb. unfold ClipData, slice_dates. simpl.
    rewrite filter_filter_andb.
    rewrite (filter_ext _ (in_window c d)); [reflexivity|].
    intros r. destruct (in_window c d r) eqn:E; [|reflexivity].
    simpl. now apply (in_window_widen c d a b). }
  split; [|split; [|split]].
  - intros r. unfold ClipData, slice_dates. simpl.
    rewrite !filter_In. tauto.
  - unfold ClipData, slice_dates. simpl. rewrite !filter_filter_andb.
    rewrite (filter_ext _ (fun x => in_window s1 e1 x && in_window s2 e2 x));
      [reflexivity|].
    intros r. apply andb_comm.
  - apply Hnest.
  - apply Hnest; apply ts_leb_refl.
Qed.

Lemma ClipData_compose_witness :
  ClipData (fst (ClipData (fst (ReadData sample_file)) (jan 1) (jan 3)))
           (jan 2) (jan 3)
  = ClipData (fst (ReadData sample_file)) (jan 2) (jan 3).
Proof.
  assert (Hs : chronological (fst (ReadData sample_file))).
  { unfold chronological. simpl. repeat constructor. }
  apply (proj1 (proj2 (proj2 (ClipData_compose (fst (ReadData sample_file))
                                               (jan 1) (jan 3) (jan 2) (jan 3)
                                               Hs)))).
  - reflexivity.
  - reflexivity.
Defined.

Lemma StronglySorted_map_filter {A B : Type} (R : B -> B -> Prop)
      (key : A -> B) (f : A -> bool) (l : list A) :
  StronglySorted R (map key l) -> StronglySorted R (map key (filter f l)).
Proof.
  induction l as [|a l IH]; simpl; intros HS; [constructor|].
  inversion HS as [|? ? HS' Hall]; subst.
  destruct (f a); simpl; [|now apply IH].
  constructor; [now apply IH|].
  rewrite Forall_forall in *. intros b Hb. apply Hall.
  apply in_map_iff in Hb. destruct Hb as [x [<- Hx]].
  apply in_map. apply filter_In in Hx. tauto.
Qed.

(** X5: the Range Clipper keeps the dates in order: a table in
    chronological order is clipped to a table in chronological order, and a
    file whose lines are in date order is read and clipped to one. *)
Theorem ClipData_preserves_chronological (startDate endDate : Timestamp) :
  (forall DataDF,
      chronological DataDF ->
      chronological (fst (ClipData DataDF startDate endDate))) /\
  (forall fileName,
      Sorted ts_le (map f_date fileName) ->
      chronological (fst (ClipData (fst (ReadData fileName))
                                   startDate endDate))).
Proof.
  assert (H : forall DataDF,
             chronological DataDF ->
             chronological (fst (ClipData DataDF startDate endDate))).
  { intros DataDF Hs. unfold chronological, index, ClipData, slice_dates in *.
    simpl. apply StronglySorted_Sorted. apply StronglySorted_map_filter.
    apply Sorted_StronglySorted; [exact ts_le_trans|exact Hs]. }
  split; [exact H|].
  intros fileName Hs. apply H. unfold chronological.
  now rewrite ReadData_index.
Qed.

Lemma ClipData_preserves_chronological_witness :
  chronological (fst (ClipData (fst (ReadData sample_file)) (jan 2) (jan 3))).
Proof.
  apply (proj2 (ClipData_preserves_chronological (jan 2) (jan 3)) sample_file).
  simpl. repeat constructor.
Defined.

(** X6: on a table in chronological order, a wider window keeps at least
    the same rows and reports at least as many missing values. *)
Theorem ClipData_wider_window (DataDF : DataFrame) (s e s' e' : Timestamp) :
  chronological DataDF ->
  ts_le s' s -> ts_le e e' ->
  (forall r, In r (fst (ClipData DataDF s e)) ->
             In r (fst (ClipData DataDF s' e'))) /\
  (List.length (fst (ClipData DataDF s e))
   <= List.length (fst (ClipData DataDF s' e')))%nat /\
  (snd (ClipData DataDF s e) <= snd (ClipData DataDF s' e'))%nat.
Proof.
  intros _ Hs He.
  assert (Hw : forall r, In r DataDF ->
                 in_window s e r = true -> in_window s' e' r = true).
  { intros r _. now apply in_window_widen. }
  unfold ClipData, slice_dates, isna_sum. simpl. split; [|split].
  - now apply filter_incl_mono.
  - now apply filter_length_mono.
  - rewrite !filter_filter_andb. apply filter_length_mono.
    intros r Hr H. apply andb_true_iff in H. destruct H as [H1 H2].
    apply andb_true_iff. split; [exact H1|now apply Hw].
Qed.

Lemma ClipData_wider_window_witness :
  (snd (ClipData (fst (ReadData sample_file)) (jan 2) (jan 2))
   <= snd (ClipData (fst (ReadData sample_file)) (jan 1) (jan 3)))%nat.
Proof.
  apply (ClipData_wider_window (fst (ReadData sample_file))
                               (jan 2) (jan 2) (jan 1) (jan 3)).
  - unfold chronological. simpl. repeat constructor.
  - reflexivity.
  - reflexivity.
Defined.

(** ** The five-year window of the first figure *)

Lemma minus_five_years_fields (d : Timestamp) :
  1 <= month d <= 12 ->
  minus_DateOffset_months d (5 * 12)
  = mkTimestamp (year d - 5) (month d)
                (Z.min (day d) (days_in_month (year d - 5) (month d))).
Proof.
  intros Hm. unfold minus_DateOffset_months.
  assert (Hq : (year d * 12 + (month d - 1) - 5 * 12) / 12 = year d - 5).
  { symmetry. apply (Z.div_unique _ 12 (year d - 5) (month d - 1)); lia. }
  assert (Hr : (year d * 12 + (month d - 1) - 5 * 12) mod 12 = month d - 1).
  { symmetry. apply (Z.mod_unique _ 12 (year d - 5) (month d - 1)); lia. }
  rewrite Hq, Hr.
  replace (month d - 1 + 1) with (month d) by lia. reflexivity.
Qed.

Lemma valid_date_month (d : Timestamp) :
  valid_date d = true ->
  1 <= month d <= 12 /\ 1 <= day d <= days_in_month (year d) (month d).
Proof.
  unfold valid_date. rewrite !andb_true_iff, !Z.leb_le. tauto.
Qed.

Lemma days_in_month_bounds (y m : Z) : 28 <= days_in_month y m <= 31.
Proof.
  unfold days_in_month.
  destruct (m =? 2); [destruct (is_leap_year y); lia|].
  destruct ((m =? 4) || (m =? 6) || (m =? 9) || (m =? 11)); lia.
Qed.

Lemma minus_five_years_le (d : Timestamp) :
  valid_date d = true -> ts_leb (minus_DateOffset_months d (5 * 12)) d = true.
Proof.
  intros Hv. apply valid_date_month in Hv. destruct Hv as [Hm _].
  rewrite (minus_five_years_fields d Hm). unfold ts_leb. simpl.
  replace (year d - 5 <? year d) with true by (symmetry; apply Z.ltb_lt; lia).
  reflexivity.
Qed.

(** X7: [lastDate - pd.DateOffset(months=60)] on a calendar date is the
    calendar date five years earlier in the same month, not after
    [lastDate]; the day of the month is kept, except that 29 February
    becomes 28 February. *)
Theorem minus_five_years (d : Timestamp) :
  valid_date d = true ->
  year (minus_DateOffset_months d (5 * 12)) = year d - 5 /\
  month (minus_DateOffset_months d (5 * 12)) = month d /\
  valid_date (minus_DateOffset_months d (5 * 12)) = true /\
  ts_le (minus_DateOffset_months d (5 * 12)) d /\
  (day (minus_DateOffset_months d (5 * 12)) = day d \/
   (month d = 2 /\ day d = 29 /\
    day (minus_DateOffset_months d (5 * 12)) = 28)).
Proof.
  intros Hv. pose proof (minus_five_years_le d Hv) as Hle.
  apply valid_date_month in Hv. destruct Hv as [Hm Hd].
  rewrite (minus_five_years_fields d Hm) in *. simpl.
  pose proof (days_in_month_bounds (year d - 5) (month d)) as Hb.
  split; [reflexivity|]. split; [reflexivity|]. split; [|split].
  - unfold valid_date. simpl.
    rewrite !andb_true_iff, !Z.leb_le. lia.
  - exact Hle.
  - revert Hd Hb. unfold days_in_month, is_leap_year.
    destruct (Z.eqb_spec (month d) 2) as [E2|E2].
    + destruct (Z.eqb_spec (year d mod 4) 0) as [E4|E4];
        destruct (Z.eqb_spec ((year d - 5) mod 4) 0) as [F4|F4]; simpl.
      * exfalso. revert E4 F4. clear. Z.div_mod_to_equations. lia.
      * destruct (negb (year d mod 100 =? 0) || (year d mod 400 =? 0)); lia.
      * destruct (negb ((year d - 5) mod 100 =? 0)
                  || ((year d - 5) mod 400 =? 0)); lia.
      * lia.
    + destruct ((month d =? 4) || (month d =? 6) || (month d =? 9)
                || (month d =? 11)); lia.
Qed.

Lemma minus_five_years_witness :
  year (minus_DateOffset_months (day_of 2016 2 29) (5 * 12)) = 2016 - 5 /\
  month (minus_DateOffset_months (day_of 2016 2 29) (5 * 12)) = 2 /\
  valid_date (minus_DateOffset_months (day_of 2016 2 29) (5 * 12)) = true /\
  ts_le (minus_DateOffset_months (day_of 2016 2 29) (5 * 12))
        (day_of 2016 2 29) /\
  (day (minus_DateOffset_months (day_of 2016 2 29) (5 * 12)) = 29 \/
   (2 = 2 /\ 29 = 29 /\
    day (minus_DateOffset_months (day_of 2016 2 29) (5 * 12)) = 28)).
Proof.
  apply (minus_five_years (day_of 2016 2 29)).
  reflexivity.
Defined.

Lemma last_five_years_eq (wildcatFile tippeFile : File) :
  last_five_years wildcatFile tippeFile
  = match index_last
            (getitem_Discharge
               (slice_dates (fst (ReadData wildcatFile)) clip_start clip_end))
    with
    | None => None
    | Some lastDate =>
        Some (slice_series
                (getitem_Discharge
                   (slice_dates (fst (ReadData wildcatFile))
                                clip_start clip_end))
                (minus_DateOffset_months lastDate (5 * 12)) lastDate,
              slice_series
                (getitem_Discharge
                   (slice_dates (fst (ReadData tippeFile))
                                clip_start clip_end))
                (minus_DateOffset_months lastDate (5 * 12)) lastDate)
    end.
Proof. reflexivity. Qed.


Lemma index_last_In (s : DailySeries) (d : Timestamp) :
  index_last s = Some d -> In d (map fst s).
Proof.
  unfold index_last. intros H. apply in_rev.
  destruct (rev (map fst s)) as [|a t]; [discriminate|].
  simpl in H. injection H as ->. now left.
Qed.

Lemma clipped_series_In (fileName : File) (s e : Timestamp)
      (p : Timestamp * option Q) :
  In p (getitem_Discharge (slice_dates (fst (ReadData fileName)) s e)) ->
  In (fst p) (map f_date fileName) /\
  ts_le s (fst p) /\ ts_le (fst p) e /\ discharge_ok (snd p).
Proof.
  unfold getitem_Discharge. intros Hp.
  apply in_map_iff in Hp. destruct Hp as [r [<- Hr]]. simpl.
  apply slice_dates_in in Hr. destruct Hr as [Hr [Hs He]].
  split; [|split; [exact Hs|split; [exact He|]]].
  - rewrite <- ReadData_index. unfold index. now apply in_map.
  - pose proof (ReadData_ok fileName) as Hok.
    rewrite Forall_forall in Hok. now apply Hok.
Qed.



(** X9: when the lines of both files are in date order, the Wildcat file
    holds calendar dates and the script gets past [wildcatDF.index[-1]], the
    Wildcat series of the first figure is not empty: it has a point at the
    last Wildcat date.  Every point drawn for either station is dated within
    the five years that end at that date and within the clipping window, and
    its discharge is missing or at least 0. *)
Theorem last_five_years_plotted (wildcatFile tippeFile : File)
        (wildcat tippe : DailySeries) :
  Sorted ts_le (map f_date wildcatFile) ->
  Sorted ts_le (map f_date tippeFile) ->
  (forall l, In l wildcatFile -> valid_date (f_date l) = true) ->
  last_five_years wildcatFile tippeFile = Some (wildcat, tippe) ->
  exists lastDate,
    In lastDate (map f_date wildcatFile) /\
    In lastDate (map fst wildcat) /\
    (forall p, In p wildcat \/ In p tippe ->
       ts_le (minus_DateOffset_months lastDate (5 * 12)) (fst p) /\
       ts_le (fst p) lastDate /\
       ts_le clip_start (fst p) /\ ts_le (fst p) clip_end /\
       discharge_ok (snd p)).
Proof.
  intros _ _ Hvalid. rewrite last_five_years_eq.
  set (wd := getitem_Discharge
               (slice_dates (fst (ReadData wildcatFile)) clip_start clip_end)).
  set (td := getitem_Discharge
               (slice_dates (fst (ReadData tippeFile)) clip_start clip_end)).
  destruct (index_last wd) as [lastDate|] eqn:Hlast; [|discriminate].
  intros H. injection H as <- <-.
  exists lastDate.
  pose proof (index_last_In _ _ Hlast) as Hin.
  apply in_map_iff in Hin. destruct Hin as [p0 [Hp0 Hin0]].
  destruct (clipped_series_In _ _ _ _ Hin0) as [Hfile _].
  rewrite Hp0 in Hfile.
  assert (Hv : valid_date lastDate = true).
  { apply in_map_iff in Hfile. destruct Hfile as [l [<- Hl]]. now apply Hvalid. }
  split; [exact Hfile|]. split.
  - apply in_map_iff. exists p0. split; [exact Hp0|].
    unfold slice_series. apply filter_In. split; [exact Hin0|].
    cbv beta. change 60 with (5 * 12).
    rewrite Hp0, (minus_five_years_le _ Hv), ts_leb_refl.
    reflexivity.
  - intros p Hp.
    assert (Hwin : ts_leb (minus_DateOffset_months lastDate (5 * 12)) (fst p)
                   && ts_leb (fst p) lastDate = true /\
                   (In p wd \/ In p td)).
    { unfold slice_series in Hp.
      destruct Hp as [Hp|Hp]; apply filter_In in Hp; tauto. }
    destruct Hwin as [Hw Hsrc]. apply andb_true_iff in Hw.
    destruct Hw as [Hw1 Hw2].
    split; [exact Hw1|]. split; [exact Hw2|].
    destruct Hsrc as [Hsrc|Hsrc];
      apply clipped_series_In in Hsrc; tauto.
Qed.

Lemma last_five_years_plotted_witness :
  exists lastDate,
    In lastDate (map f_date wildcat_sample) /\
    In lastDate
       (map fst [(day_of 2012 6 30, None); (day_of 2016 2 29, Some 6%Q)]) /\
    (forall p,
       In p [(day_of 2012 6 30, None); (day_of 2016 2 29, Some 6%Q)]
       \/ In p [(day_of 2011 2 28, None)] ->
       ts_le (minus_DateOffset_months lastDate (5 * 12)) (fst p) /\
       ts_le (fst p) lastDate /\
       ts_le clip_start (fst p) /\ ts_le (fst p) clip_end /\
       discharge_ok (snd p)).
Proof.
  apply (last_five_years_plotted wildcat_sample tippe_sample).
  - simpl. repeat constructor.
  - simpl. repeat constructor.
  - intros l [<-|[<-|[<-|[]]]]; reflexivity.
  - reflexivity.
Defined.

(** ** More on the Monthly Averager *)

Lemma find_month_column (MoDataDF : MetricsDF) (m : Z) :
  find (fun c => fst c =? m) (GetMonthlyAverages MoDataDF)
  = if (1 <=? m) && (m <=? 12)
    then Some (m, mean (loc MoDataDF (month_is (m_index MoDataDF) m)))
    else None.
Proof.
  unfold GetMonthlyAverages. cbn [find fst map seq nth].
  repeat match goal with
         | |- context [?a =? m] =>
             destruct (Z.eqb_spec a m) as [<-|?]; [reflexivity|]
         end.
  destruct (Z.leb_spec 1 m); destruct (Z.leb_spec m 12); simpl;
    try reflexivity.
  lia.
Qed.

Lemma cell_at_nanmean (MoDataDF : MetricsDF) (m : Z) (k : nat)
      (name : string) (vals : list (option Q)) :
  1 <= m <= 12 ->
  nth_error (m_columns MoDataDF) k = Some (name, vals) ->
  cell_at (GetMonthlyAverages MoDataDF) m k
  = Some (nanmean (select (month_is (m_index MoDataDF) m) vals)).
Proof.
  intros Hm Hk. unfold cell_at. rewrite find_month_column.
  replace ((1 <=? m) && (m <=? 12)) with true
    by (symmetry; apply andb_true_iff; split; apply Z.leb_le; lia).
  simpl. now rewrite (mean_nth _ _ _ _ _ Hk).
Qed.

Lemma select_no_month (m : Z) (dates : list Timestamp) :
  (forall d, In d dates -> month d <> m) ->
  forall A (l : list A), select (month_is dates m) l = [].
Proof.
  induction dates as [|d ds IH]; intros Hall A [|a l]; simpl; try reflexivity.
  replace (month d =? m) with false.
  - apply IH. intros x Hx. apply Hall. now right.
  - symmetry. apply Z.eqb_neq. apply Hall. now left.
Qed.

(** X12: a calendar month in which the table has no row gives a column of
    missing cells, one per statistic, and no error; for a table without
    rows this holds for all twelve columns. *)
Theorem GetMonthlyAverages_empty_month (MoDataDF : MetricsDF) (m : Z) :
  1 <= m <= 12 ->
  (forall d, In d (m_index MoDataDF) -> month d <> m) ->
  forall k name vals,
    nth_error (m_columns MoDataDF) k = Some (name, vals) ->
    cell_at (GetMonthlyAverages MoDataDF) m k = Some None.
Proof.
  intros Hm Hnone k name vals Hk.
  rewrite (cell_at_nanmean MoDataDF m k name vals Hm Hk).
  now rewrite (select_no_month m (m_index MoDataDF) Hnone).
Qed.

Lemma GetMonthlyAverages_empty_month_witness :
  cell_at (GetMonthlyAverages sample_monthly) 7 0 = Some None.
Proof.
  apply (GetMonthlyAverages_empty_month sample_monthly 7)
    with (name := "Mean Flow") (vals := [Some 10%Q; Some 20%Q; None]).
  - lia.
  - intros d [<-|[<-|[<-|[]]]]; discriminate.
  - reflexivity.
Defined.

(** ** The station filter and the series of the monthly figure *)

Lemma select_length {A : Type} (mask : list bool) (l : list A) :
  List.length mask = List.length l ->
  List.length (select mask l) = List.length (filter (fun b => b) mask).
Proof.
  revert l. induction mask as [|b mask IH]; intros [|a l]; simpl;
    try discriminate; [reflexivity|].
  intros H. injection H as H. destruct b; simpl; now rewrite IH.
Qed.

Lemma select_all_false {A : Type} (mask : list bool) (l : list A) :
  filter (fun b => b) mask = [] -> select mask l = [].
Proof.
  revert l. induction mask as [|b mask IH]; intros [|a l]; simpl;
    try reflexivity.
  destruct b; [discriminate|]. apply IH.
Qed.

Lemma select_nil {A : Type} (mask : list bool) : select mask (@nil A) = [].
Proof. now destruct mask. Qed.

Lemma station_is_count (df : MetricsDF) (station : string) :
  List.length (filter (fun b => b) (station_is df station))
  = count_station df station.
Proof.
  unfold station_is, count_station.
  induction (m_station df) as [|s l IH]; simpl; [reflexivity|].
  destruct (String.eqb s station); simpl; now rewrite IH.
Qed.

Lemma station_is_select (df : MetricsDF) (station : string) :
  Forall (fun s => s = station)
         (select (station_is df station) (m_station df)).
Proof.
  unfold station_is.
  induction (m_station df) as [|s l IH]; simpl; [constructor|].
  destruct (String.eqb_spec s station); [constructor|]; assumption.
Qed.

(** X13: the station filter [df.loc[df['Station'] == name]] keeps a metrics
    table well formed, keeps its columns and their names, leaves only rows
    of that station, and keeps as many rows as the station has in the
    table. *)
Theorem loc_station_rows (df : MetricsDF) (station : string) :
  well_formed df ->
  well_formed (loc df (station_is df station)) /\
  map fst (m_columns (loc df (station_is df station)))
  = map fst (m_columns df) /\
  Forall (fun s => s = station) (m_station (loc df (station_is df station))) /\
  List.length (m_index (loc df (station_is df station)))
  = count_station df station.
Proof.
  intros [Hst Hcols].
  assert (Hmask : List.length (station_is df station)
                  = List.length (m_index df)).
  { unfold station_is. now rewrite length_map. }
  assert (Hidx : List.length (select (station_is df station) (m_index df))
                 = count_station df station).
  { rewrite select_length by exact Hmask. apply station_is_count. }
  split; [|split; [|split]].
  - unfold well_formed, loc. simpl. split.
    + rewrite Hidx, select_length by congruence. apply station_is_count.
    + rewrite Forall_forall in *. intros c Hc.
      apply in_map_iff in Hc. destruct Hc as [c0 [<- Hc0]]. simpl.
      rewrite Hidx, select_length.
      * apply station_is_count.
      * rewrite Hmask. symmetry. now apply Hcols.
  - unfold loc. simpl. rewrite map_map. reflexivity.
  - unfold loc. simpl. apply station_is_select.
  - exact Hidx.
Qed.

Lemma loc_station_rows_witness :
  List.length (m_index (loc sample_annual (station_is sample_annual "Tippe")))
  = count_station sample_annual "Tippe".
Proof.
  apply (loc_station_rows sample_annual "Tippe").
  split; [reflexivity|]. repeat constructor.
Defined.

Lemma getitem_loc (df : MetricsDF) (mask : list bool) (name : string) :
  getitem (loc df mask) name = option_map (select mask) (getitem df name).
Proof.
  unfold getitem, loc. simpl.
  induction (m_columns df) as [|c cols IH]; simpl; [reflexivity|].
  destruct (String.eqb (fst c) name); [reflexivity|exact IH].
Qed.

Lemma get_cell_mean (df : MetricsDF) (name : string) :
  get_cell (mean df) name
  = match getitem df name with
    | Some vals => nanmean vals
    | None => None
    end.
Proof.
  unfold get_cell, mean, getitem.
  induction (m_columns df) as [|c cols IH].
  - destruct (m_index df); [|reflexivity].
    cbn [map app find fst snd option_map].
    destruct (String.eqb "Station" name); reflexivity.
  - simpl. destruct (String.eqb (fst c) name); [reflexivity|exact IH].
Qed.

Lemma existsb_eqb_In (name : string) (l : list string) :
  existsb (String.eqb name) l = true <-> In name l.
Proof.
  rewrite existsb_exists. split.
  - intros [x [Hx He]]. apply String.eqb_eq in He. now subst.
  - intros H. exists name. split; [exact H|apply String.eqb_refl].
Qed.

Lemma row_labels_In (df : MetricsDF) (name : string) :
  name <> "Station" ->
  In name (row_labels (GetMonthlyAverages df)) <->
  In name (map fst (m_columns df)).
Proof.
  intros Hne. rewrite row_labels_spec. split; [|now left].
  intros [H|[H _]]; [exact H|contradiction].
Qed.

Lemma transpose_getitem_months (df : MetricsDF) (name : string) :
  In name (map fst (m_columns df)) ->
  transpose_getitem (GetMonthlyAverages df) name
  = Some (map (fun m => (m, get_cell
                              (mean (loc df (month_is (m_index df) m))) name))
              [1; 2; 3; 4; 5; 6; 7; 8; 9; 10; 11; 12]).
Proof.
  intros Hin. unfold transpose_getitem.
  replace (existsb (String.eqb name) (row_labels (GetMonthlyAverages df)))
    with true
    by (symmetry; apply existsb_eqb_In, row_labels_spec; now left).
  reflexivity.
Qed.

(** X14: the series of the monthly figure for one station.  Reading
    ['Mean Flow'] off the transposed table of averages raises a KeyError
    exactly when the metrics table has no column of that name; otherwise it
    gives twelve values labelled 1 to 12 in order, whatever the station
    name.  A station that has no row in the table gives twelve missing
    values and no error. *)
Theorem monthly_mean_flow_series (monthlyMetrics : MetricsDF)
        (station : string) :
  (In "Mean Flow" (map fst (m_columns monthlyMetrics)) ->
   exists s, monthly_mean_flow monthlyMetrics station = Some s /\
             labels s = [1; 2; 3; 4; 5; 6; 7; 8; 9; 10; 11; 12]) /\
  (~ In "Mean Flow" (map fst (m_columns monthlyMetrics)) ->
   monthly_mean_flow monthlyMetrics station = None) /\
  (In "Mean Flow" (map fst (m_columns monthlyMetrics)) ->
   count_station monthlyMetrics station = 0%nat ->
   monthly_mean_flow monthlyMetrics station
   = Some (map (fun m => (m, None))
               [1; 2; 3; 4; 5; 6; 7; 8; 9; 10; 11; 12])).
Proof.
  set (df := loc monthlyMetrics (station_is monthlyMetrics station)).
  assert (Hnames : map fst (m_columns df) = map fst (m_columns monthlyMetrics)).
  { unfold df, loc. simpl. now rewrite map_map. }
  unfold monthly_mean_flow. fold df.
  split; [|split].
  - intros Hin. rewrite <- Hnames in Hin.
    rewrite (transpose_getitem_months df _ Hin).
    eexists. split; [reflexivity|]. reflexivity.
  - intros Hnot. unfold transpose_getitem.
    destruct (existsb (String.eqb "Mean Flow")
                      (row_labels (GetMonthlyAverages df))) eqn:E;
      [|reflexivity].
    apply existsb_eqb_In, row_labels_In in E; [|discriminate].
    rewrite Hnames in E. contradiction.
  - intros Hin Hzero. rewrite <- Hnames in Hin.
    rewrite (transpose_getitem_months df _ Hin). f_equal.
    apply map_ext. intros m. f_equal.
    rewrite get_cell_mean, getitem_loc. unfold df.
    rewrite getitem_loc.
    destruct (getitem monthlyMetrics "Mean Flow") as [vals|];
      [|reflexivity].
    simpl. rewrite (select_all_false (station_is monthlyMetrics station) vals).
    + now rewrite select_nil.
    + apply length_zero_iff_nil. now rewrite station_is_count.
Qed.

Lemma monthly_mean_flow_series_witness :
  monthly_mean_flow sample_monthly "Tippe"
  = Some (map (fun m => (m, None)) [1; 2; 3; 4; 5; 6; 7; 8; 9; 10; 11; 12]).
Proof.
  apply (proj2 (proj2 (monthly_mean_flow_series sample_monthly "Tippe"))).
  - simpl. left. reflexivity.
  - reflexivity.
Defined.

(** ** More on the exceedance ranking *)

Lemma filter_isna_repeat (s : FloatSeries) :
  filter isna s = repeat None (List.length (filter isna s)).
Proof.
  induction s as [|[q|] s IH]; simpl; [reflexivity|exact IH|].
  now rewrite <- IH.
Qed.

Lemma dropna_perm (s : FloatSeries) :
  Permutation s (map Some (dropna s) ++ filter isna s).
Proof.
  induction s as [|[q|] s IH]; simpl.
  - constructor.
  - now apply perm_skip.
  - now apply Permutation_cons_app.
Qed.

Lemma sort_values_descending_perm (s : FloatSeries) :
  Permutation s (sort_values_descending s).
Proof.
  unfold sort_values_descending.
  eapply Permutation_trans; [apply dropna_perm|].
  apply Permutation_app_tail, Permutation_map, sort_desc_perm.
Qed.

Lemma ExceedanceRanker_eq (peak : FloatSeries) :
  ExceedanceRanker peak
  = (sort_values_descending peak,
     Returns (map (position (List.length peak)) (seq 0 (List.length peak)))).
Proof.
  unfold ExceedanceRanker. rewrite plotting_positions_eq. simpl.
  now rewrite <- (Permutation_length (sort_values_descending_perm peak)).
Qed.

(** X15: [sort_values(ascending=False)] on a series that has missing
    entries loses and invents nothing: the result is a rearrangement of the
    series, of the same length, with the numbers first in descending order
    and all missing entries after them. *)
Theorem sort_values_descending_nan_last (s : FloatSeries) :
  exists nums,
    sort_values_descending s
    = map Some nums ++ repeat None (List.length (filter isna s)) /\
    descending nums /\
    Permutation (dropna s) nums /\
    Permutation s (sort_values_descending s) /\
    List.length (sort_values_descending s) = List.length s.
Proof.
  exists (sort_desc (dropna s)).
  split; [|split; [|split; [|split]]].
  - unfold sort_values_descending. now rewrite <- filter_isna_repeat.
  - apply sort_desc_descending.
  - apply sort_desc_perm.
  - apply sort_values_descending_perm.
  - symmetry. apply Permutation_length, sort_values_descending_perm.
Qed.

Lemma sort_desc_fixed (l : list Q) : Sorted ge_Q l -> sort_desc l = l.
Proof.
  induction 1 as [|x l Hs IH Hhd]; simpl; [reflexivity|].
  rewrite IH. destruct Hhd as [|y l' Hxy]; simpl; [reflexivity|].
  replace (Qle_bool y x) with true; [reflexivity|].
  symmetry. now apply Qle_bool_iff.
Qed.

Lemma dropna_app (s t : FloatSeries) : dropna (s ++ t) = dropna s ++ dropna t.
Proof. unfold dropna. apply flat_map_app. Qed.

Lemma dropna_map_Some (l : list Q) : dropna (map Some l) = l.
Proof. induction l as [|x l IH]; simpl; [reflexivity|now rewrite IH]. Qed.

Lemma dropna_filter_isna (s : FloatSeries) : dropna (filter isna s) = [].
Proof. induction s as [|[q|] s IH]; simpl; auto. Qed.

Lemma filter_isna_map_Some (l : list Q) : filter isna (map Some l) = [].
Proof. induction l as [|x l IH]; simpl; auto. Qed.

Lemma filter_isna_idem (s : FloatSeries) :
  filter isna (filter isna s) = filter isna s.
Proof.
  induction s as [|[q|] s IH]; simpl; [reflexivity|exact IH|].
  now rewrite IH.
Qed.

(** X16: sorting a series that is already sorted changes nothing, so the
    ranking can be applied to its own output. *)
Theorem sort_values_descending_idempotent (s : FloatSeries) :
  sort_values_descending (sort_values_descending s)
  = sort_values_descending s.
Proof.
  unfold sort_values_descending at 1.
  assert (Hd : dropna (sort_values_descending s) = sort_desc (dropna s)).
  { unfold sort_values_descending.
    now rewrite dropna_app, dropna_map_Some, dropna_filter_isna, app_nil_r. }
  assert (Hf : filter isna (sort_values_descending s) = filter isna s).
  { unfold sort_values_descending.
    now rewrite filter_app, filter_isna_map_Some, filter_isna_idem. }
  rewrite Hd, Hf, sort_desc_fixed by apply sort_desc_sorted.
  reflexivity.
Qed.

Lemma getitem_In (df : MetricsDF) (name : string) :
  In name (map fst (m_columns df)) ->
  exists vals, getitem df name = Some vals /\ In (name, vals) (m_columns df).
Proof.
  unfold getitem.
  induction (m_columns df) as [|[n v] cols IH]; simpl; [contradiction|].
  intros H. destruct (String.eqb_spec n name) as [->|Hne].
  - exists v. split; [reflexivity|now left].
  - destruct H as [H|H]; [contradiction|].
    destruct (IH H) as [vals [Hg Hin]]. exists vals. split; [exact Hg|now right].
Qed.

Lemma getitem_not_In (df : MetricsDF) (name : string) :
  ~ In name (map fst (m_columns df)) -> getitem df name = None.
Proof.
  unfold getitem.
  induction (m_columns df) as [|[n v] cols IH]; simpl; [reflexivity|].
  intros H. destruct (String.eqb_spec n name) as [->|Hne].
  - elim H. now left.
  - apply IH. intros Hin. apply H. now right.
Qed.

(** X17: the points of the exceedance figure for one station.  Reading
    ['Peak Flow'] raises a KeyError exactly when the annual table has no
    such column.  Otherwise, on a well-formed table, the ranking raises
    nothing and gives as many values and as many positions as the station
    has rows, missing peaks included, so the two sequences handed to the
    plot always have the same length; a station without rows gives two
    empty sequences. *)
Theorem exceedance_points_total (annualMetrics : MetricsDF)
        (station : string) :
  (~ In "Peak Flow" (map fst (m_columns annualMetrics)) ->
   exceedance_points annualMetrics station = None) /\
  (well_formed annualMetrics ->
   In "Peak Flow" (map fst (m_columns annualMetrics)) ->
   exists values positions,
     exceedance_points annualMetrics station
     = Some (values, Returns positions) /\
     List.length values = count_station annualMetrics station /\
     List.length positions = count_station annualMetrics station) /\
  (In "Peak Flow" (map fst (m_columns annualMetrics)) ->
   count_station annualMetrics station = 0%nat ->
   exceedance_points annualMetrics station = Some ([], Returns [])).
Proof.
  unfold exceedance_points, getitem_station.
  split; [|split].
  - intros Hnot. now rewrite getitem_not_In.
  - intros [Hst Hcols] Hin.
    destruct (getitem_In _ _ Hin) as [vals [-> Hv]]. simpl.
    rewrite ExceedanceRanker_eq.
    eexists. eexists. split; [reflexivity|].
    assert (Hlen : List.length (select (station_is annualMetrics station) vals)
                   = count_station annualMetrics station).
    { rewrite select_length; [apply station_is_count|].
      unfold station_is. rewrite length_map.
      rewrite Forall_forall in Hcols. specialize (Hcols _ Hv). simpl in Hcols.
      now rewrite Hst, Hcols. }
    split.
    + rewrite <- (Permutation_length (sort_values_descending_perm _)).
      exact Hlen.
    + now rewrite length_map, length_seq.
  - intros Hin Hzero.
    destruct (getitem_In _ _ Hin) as [vals [-> _]]. simpl.
    rewrite (select_all_false (station_is annualMetrics station) vals);
      [reflexivity|].
    apply length_zero_iff_nil. now rewrite station_is_count.
Qed.

Lemma exceedance_points_total_witness :
  exists values positions,
    exceedance_points sample_annual "Wildcat"
    = Some (values, Returns positions) /\
    List.length values = count_station sample_annual "Wildcat" /\
    List.length positions = count_station sample_annual "Wildcat".
Proof.
  apply (proj1 (proj2 (exceedance_points_total sample_annual "Wildcat"))).
  - split; [reflexivity|]. repeat constructor.
  - simpl. left. reflexivity.
Defined.
